(** * SAM/generate_docs.py: the documentation generator

    A shallow embedding of the script [SAM/generate_docs.py] and of the part
    of the python-docx API it calls.  Python objects that are mutated in
    place (the [document], its paragraphs and runs) are modelled by a state
    monad with exceptions whose state is the object; a paragraph or run
    proxy returned by the library is a reference (an index) into it.  A
    Python [str] is modelled by the bytes of its UTF-8 encoding. *)

From Stdlib Require Import ZArith String Ascii DecimalString.
From stdpp Require Import base option list strings gmap.

Open Scope string_scope.
Open Scope Z_scope.
Open Scope list_scope.

(** ** Exceptions and the state-and-exception monad *)

Inductive exn : Type :=
  | ValueError (msg : string)
  | OSError (path : string)
  | ImportError (msg : string)
  | ModuleNotFoundError (name : string)
  | KeyboardInterrupt
  | SystemExit (msg : string).

(** [isinstance(exc, Exception)]: [KeyboardInterrupt] and [SystemExit]
    derive from [BaseException] only. *)
Definition is_Exception (e : exn) : bool :=
  match e with
  | KeyboardInterrupt | SystemExit _ => false
  | _ => true
  end.

(** A computation over a mutable state [S] that returns a value or raises;
    the state reached is kept in both cases. *)
Definition Py (S A : Type) : Type := S → (exn + A) * S.

Global Instance Py_ret {S} : MRet (Py S) := λ A a s, (inr a, s).

Global Instance Py_bind {S} : MBind (Py S) := λ A B f m s,
  match m s with
  | (inl e, s') => (inl e, s')
  | (inr a, s') => f a s'
  end.

Definition raise {S A} (e : exn) : Py S A := λ s, (inl e, s).
Definition get {S} : Py S S := λ s, (inr s, s).
Definition modify {S} (f : S → S) : Py S unit := λ s, (inr tt, f s).

(** [for x in xs: body(x)] *)
Fixpoint for_each {S A} (xs : list A) (body : A → Py S unit) : Py S unit :=
  match xs with
  | [] => mret tt
  | x :: xs' => body x;; for_each xs' body
  end.

(** ** The python-docx object model *)

Inductive WD_ALIGN_PARAGRAPH : Type := LEFT | CENTER | RIGHT | JUSTIFY.

(** A run: its text and the tri-state [bold] and [italic] properties
    ([None] inherits, [Some b] is set explicitly). *)
Record Run : Type := mkRun {
  run_text : string;
  run_bold : option bool;
  run_italic : option bool
}.

(** A paragraph: its runs, the name of its style ([None] is the default
    paragraph style) and its alignment ([None] is inherited from the style
    hierarchy, which is left-aligned in the default template). *)
Record Paragraph : Type := mkParagraph {
  runs : list Run;
  style : option string;
  alignment : option WD_ALIGN_PARAGRAPH
}.

(** The document body, in document order. *)
Definition Document : Type := list Paragraph.

(** Proxies handed out by the library. *)
Definition ParagraphRef : Type := nat.
Definition RunRef : Type := (nat * nat)%type.

(** [Document()]: the default template has an empty body. *)
Definition Document_init : Document := [].

Definition set_style (s : option string) (p : Paragraph) : Paragraph :=
  mkParagraph (runs p) s (alignment p).
Definition set_alignment (a : option WD_ALIGN_PARAGRAPH) (p : Paragraph) : Paragraph :=
  mkParagraph (runs p) (style p) a.
Definition push_run (r : Run) (p : Paragraph) : Paragraph :=
  mkParagraph (runs p ++ [r]) (style p) (alignment p).
Definition alter_run (f : Run → Run) (i : nat) (p : Paragraph) : Paragraph :=
  mkParagraph (alter f i (runs p)) (style p) (alignment p).

(** *** Text of a run

    Setting [run.text] goes through the library's [_RunContentAppender]: a
    tab becomes a tab element, a carriage return or a line feed becomes a
    line break, and the characters in between are stored as text elements,
    which lxml refuses when they are not XML compatible.  Reading
    [run.text] gives the tab back as a tab and a line break as a line
    feed. *)

Definition TAB : ascii := ascii_of_nat 9.
Definition LF : ascii := ascii_of_nat 10.
Definition CR : ascii := ascii_of_nat 13.

(** lxml's [xmlIsChar_ch]: the characters below 0x80 that XML allows. *)
Definition xmlIsChar_ch (c : ascii) : bool :=
  let n := Z.of_nat (nat_of_ascii c) in
  ((9 <=? n) && (n <=? 10)) || (n =? 13) || (32 <=? n).

(** The three bytes starting at [a] encode U+FFFE, U+FFFF or a surrogate. *)
Definition forbidden3 (a : ascii) (r : string) : bool :=
  match r with
  | String b (String c _) =>
      let next3 := 65536 * Z.of_nat (nat_of_ascii a)
                   + 256 * Z.of_nat (nat_of_ascii b) + Z.of_nat (nat_of_ascii c) in
      (next3 =? 15712190) || (next3 =? 15712191)
      || ((15573120 <=? next3) && (next3 <=? 15581119))
  | _ => false
  end.

(** lxml's [_is_valid_xml_utf8]: no NUL byte, no control character other
    than tab, line feed and carriage return, none of the forbidden code
    points. *)
Fixpoint is_valid_xml_utf8 (s : string) : bool :=
  match s with
  | "" => true
  | String a r =>
      (if 128 <=? Z.of_nat (nat_of_ascii a) then negb (forbidden3 a r)
       else xmlIsChar_ch a)
      && is_valid_xml_utf8 r
  end.

Definition xml_error : exn :=
  ValueError
    "All strings must be XML compatible: Unicode or ASCII, no NULL bytes or control characters".

(** [_RunContentAppender.flush]: the pending characters become a text
    element, unless lxml refuses them.  The result is the error, if any,
    and the content of the run as it reads back. *)
Definition flush (bfr content : string) : option exn * string :=
  if decide (bfr = "") then (None, content)
  else if is_valid_xml_utf8 bfr then (None, content +:+ bfr)
  else (Some xml_error, content).

(** [_RunContentAppender.add_text], character by character. *)
Fixpoint add_text (text bfr content : string) : option exn * string :=
  match text with
  | "" => flush bfr content
  | String char rest =>
      if decide (char = TAB) then
        match flush bfr content with
        | (None, content') => add_text rest "" (content' +:+ String TAB "")
        | failed => failed
        end
      else if decide (char = CR ∨ char = LF) then
        match flush bfr content with
        | (None, content') => add_text rest "" (content' +:+ String LF "")
        | failed => failed
        end
      else add_text rest (bfr +:+ String char "") content
  end.

(** [run.text = text]: the content is cleared and rebuilt; when lxml
    refuses a piece, the pieces before it stay and [ValueError] is raised. *)
Definition Run_set_text (r : RunRef) (text : string) : Py Document unit :=
  let result := add_text text "" "" in
  modify (alter (alter_run (λ x, mkRun result.2 (run_bold x) (run_italic x)) r.2) r.1);;
  match result.1 with
  | Some e => raise e
  | None => mret tt
  end.

(** [paragraph.add_run(text)]: appends an empty run, sets its text when
    [text] is not empty, and returns its proxy. *)
Definition Paragraph_add_run (p : ParagraphRef) (text : string) : Py Document RunRef :=
  doc ← get;
  let i := from_option (λ para, length (runs para)) 0%nat (doc !! p) in
  modify (alter (push_run (mkRun "" None None)) p);;
  (if decide (text = "") then mret tt else Run_set_text (p, i) text);;
  mret (p, i).

(** [run.bold = b] and [run.italic = b] *)
Definition Run_set_bold (r : RunRef) (b : bool) : Py Document unit :=
  modify (alter (alter_run (λ x, mkRun (run_text x) (Some b) (run_italic x)) r.2) r.1).
Definition Run_set_italic (r : RunRef) (b : bool) : Py Document unit :=
  modify (alter (alter_run (λ x, mkRun (run_text x) (run_bold x) (Some b)) r.2) r.1).

(** [paragraph.alignment = a] and [paragraph.style = name] *)
Definition Paragraph_set_alignment (p : ParagraphRef) (a : WD_ALIGN_PARAGRAPH)
    : Py Document unit :=
  modify (alter (set_alignment (Some a)) p).
Definition Paragraph_set_style (p : ParagraphRef) (name : string) : Py Document unit :=
  modify (alter (set_style (Some name)) p).

(** [document.add_paragraph(text='', style=None)]: a new paragraph at the
    end of the body; a run is added only for a non-empty [text]. *)
Definition Document_add_paragraph (text : string) (sty : option string)
    : Py Document ParagraphRef :=
  doc ← get;
  let p := length doc in
  modify (λ d, d ++ [mkParagraph [] None None]);;
  (if decide (text = "") then mret tt else Paragraph_add_run p text;; mret tt);;
  match sty with
  | Some name => Paragraph_set_style p name
  | None => mret tt
  end;;
  mret p.

(** ["%d" % n] for an integer [n]. *)
Definition format_d (n : Z) : string :=
  match n with
  | Z0 => "0"
  | Zpos _ => NilZero.string_of_uint (N.to_uint (Z.to_N n))
  | Zneg _ => "-" +:+ NilZero.string_of_uint (N.to_uint (Z.to_N (- n)))
  end.

(** [document.add_heading(text, level)]: a paragraph styled ["Title"] for
    level 0 and ["Heading n"] otherwise; levels outside 0..9 are refused. *)
Definition Document_add_heading (text : string) (level : Z) : Py Document ParagraphRef :=
  if negb ((0 <=? level) && (level <=? 9)) then
    raise (ValueError ("level must be in range 0-9, got " +:+ format_d level))
  else
    let sty := if level =? 0 then "Title" else "Heading " +:+ format_d level in
    Document_add_paragraph text (Some sty).

(** ** The helpers of generate_docs.py *)

Definition add_heading (text : string) (level : Z) : Py Document unit :=
  Document_add_heading text level;; mret tt.

Definition add_paragraph (text : string) (bold italic : bool)
    (alignment : option string) : Py Document ParagraphRef :=
  p ← Document_add_paragraph "" None;
  run ← Paragraph_add_run p text;
  Run_set_bold run bold;;
  Run_set_italic run italic;;
  (if decide (alignment = Some "center") then
     Paragraph_set_alignment p CENTER
   else if decide (alignment = Some "right") then
     Paragraph_set_alignment p RIGHT
   else mret tt);;
  mret p.

Definition add_bullets (items : list string) : Py Document unit :=
  for_each items (λ item,
    Document_add_paragraph item (Some "List Bullet");; mret tt).

Definition add_numbered (items : list string) : Py Document unit :=
  for_each items (λ item,
    Document_add_paragraph item (Some "List Number");; mret tt).

(** ** The clock: [datetime.now()] and [strftime] *)

Record datetime : Type := mkDatetime {
  year : Z; month : Z; day : Z; hour : Z; minute : Z; second : Z
}.

(** [s.zfill(width)] for a string of digits. *)
Definition zfill (width : nat) (s : string) : string :=
  String.concat "" (replicate (width - String.length s) "0") +:+ s.

(** One conversion of [strftime]; the year has four digits for every date a
    system clock reports. *)
Definition directive (t : datetime) (c : ascii) : string :=
  if decide (c = "Y"%char) then zfill 4 (format_d (year t))
  else if decide (c = "m"%char) then zfill 2 (format_d (month t))
  else if decide (c = "d"%char) then zfill 2 (format_d (day t))
  else if decide (c = "H"%char) then zfill 2 (format_d (hour t))
  else if decide (c = "M"%char) then zfill 2 (format_d (minute t))
  else if decide (c = "S"%char) then zfill 2 (format_d (second t))
  else if decide (c = "%"%char) then "%"
  else String "%" (String c "").

Fixpoint strftime (t : datetime) (fmt : string) : string :=
  match fmt with
  | "" => ""
  | String c rest =>
      match rest with
      | String d rest' =>
          if decide (c = "%"%char) then directive t d +:+ strftime t rest'
          else String c (strftime t rest)
      | "" => String c ""
      end
  end.

(** ** [os.path] on POSIX *)

(** [s.rfind(c)]: the highest index of [c] in [s], or -1. *)
Fixpoint rfind (c : ascii) (s : string) : Z :=
  match s with
  | "" => -1
  | String a r =>
      let k := rfind c r in
      if 0 <=? k then k + 1 else if decide (a = c) then 0 else -1
  end.

(** [s.rstrip(c)] *)
Fixpoint rstrip (c : ascii) (s : string) : string :=
  match s with
  | "" => ""
  | String a r =>
      let r' := rstrip c r in
      if decide (r' = "" ∧ a = c) then "" else String a r'
  end.

(** [c * n] *)
Fixpoint repeat_char (c : ascii) (n : nat) : string :=
  match n with
  | O => ""
  | S n' => String c (repeat_char c n')
  end.

Definition startswith (s : string) (c : ascii) : bool :=
  match s with
  | String a _ => bool_decide (a = c)
  | "" => false
  end.

Fixpoint endswith (s : string) (c : ascii) : bool :=
  match s with
  | "" => false
  | String a r =>
      match r with
      | "" => bool_decide (a = c)
      | String _ _ => endswith r c
      end
  end.

Definition sep : ascii := "/"%char.

(** [posixpath.dirname] *)
Definition os_path_dirname (p : string) : string :=
  let i := rfind sep p + 1 in
  let head := substring 0 (Z.to_nat i) p in
  if decide (head ≠ "" ∧ head ≠ repeat_char sep (String.length head))
  then rstrip sep head
  else head.

(** [posixpath.basename] *)
Definition os_path_basename (p : string) : string :=
  let i := Z.to_nat (rfind sep p + 1) in
  substring i (String.length p - i) p.

(** [posixpath.join] of two components *)
Definition os_path_join (a p : string) : string :=
  if startswith p sep then p
  else if bool_decide (a = "") || endswith a sep then a +:+ p
  else a +:+ String sep "" +:+ p.

(** [posixpath.isabs] *)
Definition os_path_isabs (p : string) : bool := startswith p sep.

(** ** The process environment and the world it acts on *)

(** What the process reads and never changes: the clock, the outcome of
    importing python-docx ([None] when it loads), the [__file__] of the
    script (an absolute path when CPython 3.9 or later runs the script as
    [__main__]; the model leaves it free), the paths that cannot be opened
    for writing, the paths where writing fails after the file has been
    opened (a full disk), and what writing to standard output raises
    ([None] when it works). *)
Record Env : Type := mkEnv {
  clock : datetime;
  docx_import : option exn;
  dunder_file : string;
  unwritable : gset string;
  write_fails : gset string;
  stdout_error : option exn
}.

(** What a file holds: a saved document, kept as the body that was
    serialised, or what is left of a save that failed part-way. *)
Inductive file_content : Type :=
  | Docx (body : Document)
  | Truncated.

(** What reaches the error stream: a message, or the traceback of an
    exception. *)
Inductive diagnostic : Type :=
  | Message (text : string)
  | Traceback (e : exn).

(** What the process changes: the files and the two output streams. *)
Record World : Type := mkWorld {
  files : gmap string file_content;
  stdout : list string;
  stderr : list diagnostic
}.

Definition datetime_now (env : Env) : datetime := clock env.

(** [document.save(path)]: the file is opened for writing, which empties
    it, and the package is written into it.  When the file cannot be opened
    nothing changes; when writing fails afterwards the file is left
    truncated.  Both raise [OSError]. *)
Definition Document_save (env : Env) (document : Document) (path : string)
    : Py World unit :=
  if decide (path ∈ unwritable env) then raise (OSError path)
  else if decide (path ∈ write_fails env) then
    modify (λ w, mkWorld (<[path := Truncated]> (files w)) (stdout w) (stderr w));;
    raise (OSError path)
  else
    modify (λ w, mkWorld (<[path := Docx document]> (files w)) (stdout w) (stderr w)).

(** [print(line)]: raises what standard output raises, or adds the line. *)
Definition print (env : Env) (line : string) : Py World unit :=
  match stdout_error env with
  | Some e => raise e
  | None => modify (λ w, mkWorld (files w) (stdout w ++ [line]) (stderr w))
  end.

(** ** generate_doc *)

Definition OUTPUT_NAME : string := "SAM_Project_Documentation.docx".

(** Lines 44 to 164 of [generate_doc]: the appends onto [document], in
    source order. *)
Definition generate_doc_sections (env : Env) : Py Document unit :=
    (* Cover *)
    add_heading "Segment Anything Model (SAM) - Project Documentation" 0;;
    add_paragraph ("Generated: " +:+ strftime (datetime_now env) "%Y-%m-%d %H:%M")
      false true None;;
    add_paragraph "Audience: Project Manager, Software Engineer" false true None;;

    (* Executive Summary (PM) *)
    add_heading "1. Executive Summary" 1;;
    add_paragraph (
      "This project integrates Meta AI's Segment Anything Model (SAM) to enable fast, flexible " +:+
      "image segmentation. It includes a Python backend library and a TypeScript demo UI for " +:+
      "interactive segmentation and ONNX inference.") false false None;;
    add_bullets [
      "Outcome: Generate high-quality object masks from images with minimal prompts";
      "Deliverables: Python package, demo web app, example notebooks, output masks";
      "Stakeholders: PM, ML/Software Engineers";
      "Status: Ready for local runs and demonstrations"
    ];;

    (* Scope and Objectives *)
    add_heading "2. Scope & Objectives" 1;;
    add_bullets [
      "Integrate SAM core components for promptable segmentation";
      "Provide automatic mask generation utility";
      "Export model to ONNX and demo browser inference";
      "Offer notebooks for common usage patterns"
    ];;

    (* Architecture Overview *)
    add_heading "3. Architecture Overview" 1;;
    add_paragraph "High-level components:" false false None;;
    add_numbered [
      "Python package (`segment_anything/`): model, encoders, decoders, utilities";
      "Scripts (`scripts/`): automatic mask generator, ONNX export";
      "Notebooks (`notebooks/`): runnable examples";
      "Web demo (`segment-anything/demo/`): React + TypeScript UI";
      "Artifacts (`output_dir/`): generated masks and overlays"
    ];;

    (* Key Directories *)
    add_heading "4. Key Directories & Files" 1;;
    add_bullets [
      "segment_anything/modeling/sam.py: SAM model assembly";
      "segment_anything/predictor.py: High-level predictor API";
      "segment_anything/automatic_mask_generator.py: Batch/auto mask generation";
      "segment_anything/utils/onnx.py: ONNX export helpers";
      "scripts/amg.py: CLI for automatic mask generation";
      "scripts/export_onnx_model.py: Export to ONNX";
      "segment-anything/demo/src: Frontend demo application";
      "output_dir/mask/*.png: Generated masks";
      "output_dir/mask_overlay.png: Composite overlay"
    ];;

    (* Installation & Setup *)
    add_heading "5. Setup & Installation" 1;;
    add_paragraph "Prerequisites:" false false None;;
    add_bullets [
      "Python 3.9+ with pip";
      "Node.js 16+ (for web demo)";
      "GPU optional; CPU works for demos (slower)"
    ];;
    add_paragraph "Python package install:" false false None;;
    Document_add_paragraph "pip install -e ." (Some "Intense Quote");;
    add_paragraph
      "Optional extras: PyTorch, onnxruntime, onnxruntime-gpu depending on environment."
      false false None;;

    (* Usage - Python *)
    add_heading "6. Usage - Python" 1;;
    add_paragraph
      "Predictor example (points, boxes, masks): see `notebooks/predictor_example.ipynb`."
      false false None;;
    add_paragraph "Automatic mask generation:" false false None;;
    Document_add_paragraph
      "python scripts/amg.py --input <image_or_folder> --output output_dir/"
      (Some "Intense Quote");;

    (* Usage - ONNX & Web Demo *)
    add_heading "7. ONNX & Web Demo" 1;;
    add_paragraph "Export ONNX model:" false false None;;
    Document_add_paragraph
      "python scripts/export_onnx_model.py --checkpoint <path_to_ckpt> --output sam.onnx"
      (Some "Intense Quote");;
    add_paragraph "Run demo app:" false false None;;
    Document_add_paragraph
      "cd segment-anything/demo && npm ci && npm run dev"
      (Some "Intense Quote");;

    (* Data Flow *)
    add_heading "8. Data Flow" 1;;
    add_bullets [
      "Input image loaded and preprocessed (transforms)";
      "Prompt encoding (points/boxes/masks)";
      "Image encoding via vision transformer";
      "Mask decoding conditioned on prompts";
      "Post-processing and thresholding to produce binary masks"
    ];;

    (* Quality, Performance, and Risks *)
    add_heading "9. Quality, Performance, and Risks" 1;;
    add_bullets [
      "Deterministic inference given fixed prompts";
      "Performance depends on model size and hardware";
      "Memory use may be high for large images";
      "ONNX runtime on CPU may be slow; prefer GPU if available"
    ];;

    (* Roadmap *)
    add_heading "10. Roadmap & Next Steps" 1;;
    add_bullets [
      "Add CLI for promptable single-image segmentation";
      "Dockerize demo and backend for easier deployment";
      "Provide evaluation scripts and metrics";
      "Integrate continuous testing and linting in CI"
    ];;

    (* Appendix *)
    add_heading "Appendix A: References" 1;;
    add_bullets [
      "README.md for overall guidance";
      "Notebooks for hands-on examples";
      "Demo `README.md` for web UI"
    ].

(** [generate_doc(output_path)]: a fresh document, the sections, then the
    save; an exception while building leaves the world as it was. *)
Definition generate_doc (env : Env) (output_path : string) : Py World unit := λ w,
  match generate_doc_sections env Document_init with
  | (inl e, _) => (inl e, w)
  | (inr _, document) => Document_save env document output_path w
  end.

(** ** The module's top level *)

(** Running the module under the name [name]: the guarded import of
    python-docx, the definitions, and the [__main__] block. *)
Definition module_body (env : Env) (name : string) : Py World unit :=
  match docx_import env with
  | Some exc =>
      if is_Exception exc then
        raise (SystemExit
          "Missing dependency 'python-docx'. Please install it: pip install python-docx")
      else raise exc
  | None =>
      if decide (name = "__main__") then
        let out_path := os_path_join (os_path_dirname (dunder_file env)) OUTPUT_NAME in
        generate_doc env out_path;;
        print env ("Wrote documentation to: " +:+ out_path)
      else mret tt
  end.

(** What the interpreter reports for an exception nobody caught:
    [SystemExit] with a message shows the message alone, any other
    exception its traceback. *)
Definition report (e : exn) : diagnostic :=
  match e with
  | SystemExit msg => Message msg
  | _ => Traceback e
  end.

Definition SIGINT : Z := 2.

(** The status of a process that ends on an uncaught exception, as the
    parent process sees it: 1, except for [KeyboardInterrupt], after which
    the interpreter ends itself by the signal SIGINT (a status -n stands
    for the end by signal n). *)
Definition exit_status (e : exn) : Z :=
  match e with
  | KeyboardInterrupt => - SIGINT
  | _ => 1
  end.

(** [python generate_docs.py]: the exit status and the world left behind. *)
Definition run_script (env : Env) (w : World) : Z * World :=
  match module_body env "__main__" w with
  | (inr _, w') => (0, w')
  | (inl e, w') =>
      (exit_status e, mkWorld (files w') (stdout w') (stderr w' ++ [report e]))
  end.

(** ** Observations on documents *)

(** [paragraph.text]: the text of the runs, concatenated. *)
Definition Paragraph_text (p : Paragraph) : string :=
  String.concat "" (run_text <$> runs p).

(** What [run.text] gives back for a text the library accepted: the
    text with every carriage return read as a line feed. *)
Fixpoint read_back (text : string) : string :=
  match text with
  | "" => ""
  | String c rest => String (if decide (c = CR) then LF else c) (read_back rest)
  end.

(** The style names [add_heading] assigns, by level. *)
Definition heading_styles : list string :=
  "Title" :: ((λ n, "Heading " +:+ format_d n) <$> [1; 2; 3; 4; 5; 6; 7; 8; 9]).

Definition heading_level (p : Paragraph) : option Z :=
  sty ← style p;
  Z.of_nat <$> (fst <$> list_find (λ s, s = sty) heading_styles).

(** The headings of a document, in order, with their levels. *)
Definition headings (doc : Document) : list (Z * string) :=
  omap (λ p, (λ l, (l, Paragraph_text p)) <$> heading_level p) doc.

Definition is_list_style (sty : option string) : bool :=
  bool_decide (sty = Some "List Bullet") || bool_decide (sty = Some "List Number").

(** The list blocks of a document: every maximal run of consecutive
    paragraphs carrying the same list style, as the style and the items. *)
Fixpoint list_blocks (doc : Document) : list (string * list string) :=
  match doc with
  | [] => []
  | p :: rest =>
      if is_list_style (style p) then
        let sty := default "" (style p) in
        let item := Paragraph_text p in
        match rest with
        | q :: _ =>
            if decide (style q = style p) then
              match list_blocks rest with
              | (s, items) :: blocks => (s, item :: items) :: blocks
              | [] => [(sty, [item])]
              end
            else (sty, [item]) :: list_blocks rest
        | [] => [(sty, [item])]
        end
      else list_blocks rest
  end.

Fixpoint take_until_heading (doc : Document) : Document :=
  match doc with
  | [] => []
  | q :: rest =>
      if decide (heading_level q = None) then q :: take_until_heading rest else []
  end.

(** The paragraphs of the section under the level-1 heading [title]: from
    after that heading up to the next heading. *)
Fixpoint section_body (title : string) (doc : Document) : Document :=
  match doc with
  | [] => []
  | p :: rest =>
      if decide (heading_level p = Some 1 ∧ Paragraph_text p = title) then
        take_until_heading rest
      else section_body title rest
  end.

(** The document a successful run leaves at [path]. *)
Definition produced (env : Env) (path : string) (w : World) : option Document :=
  match generate_doc env path w with
  | (inr _, w') =>
      match files w' !! path with
      | Some (Docx body) => Some body
      | _ => None
      end
  | (inl _, _) => None
  end.

(** The body of the document once [generate_doc] has appended every
    section. *)
Definition built (env : Env) : Document :=
  (generate_doc_sections env Document_init).2.

(** The format of the cover's time stamp and the paragraph that shows it. *)
Definition stamp_format : string := "%Y-%m-%d %H:%M".

Definition generated_paragraph (t : datetime) : Paragraph :=
  mkParagraph [mkRun ("Generated: " +:+ strftime t stamp_format) (Some false) (Some true)]
    None None.

(** Two clock readings in the same minute. *)
Definition same_minute (t1 t2 : datetime) : Prop :=
  year t1 = year t2 ∧ month t1 = month t2 ∧ day t1 = day t2 ∧
  hour t1 = hour t2 ∧ minute t1 = minute t2.

(** What [add_paragraph] sets the alignment to. *)
Definition alignment_of (align : option string) : option WD_ALIGN_PARAGRAPH :=
  if decide (align = Some "center") then Some CENTER
  else if decide (align = Some "right") then Some RIGHT
  else None.

(** A list item as [add_bullets] and [add_numbered] append it, for an item
    the library accepts. *)
Definition list_item (sty : string) (item : string) : Paragraph :=
  mkParagraph (if decide (item = "") then [] else [mkRun (read_back item) None None])
    (Some sty) None.

(** What is left of a paragraph whose text the library refused: the run
    with the pieces stored before the refusal, no style, no format. *)
Definition stray_paragraph (text : string) : Paragraph :=
  mkParagraph [mkRun (add_text text "" "").2 None None] None None.

(** A text with a NUL character. *)
Definition nul_text : string := String (ascii_of_nat 0) "".

(** The message of the import guard. *)
Definition missing_dependency : string :=
  "Missing dependency 'python-docx'. Please install it: pip install python-docx".

(** The path the [__main__] block writes to. *)
Definition out_path (env : Env) : string :=
  os_path_join (os_path_dirname (dunder_file env)) OUTPUT_NAME.

(** An environment where python-docx is not installed. *)
Definition env_missing : Env :=
  mkEnv (mkDatetime 2024 3 9 7 5 59) (Some (ModuleNotFoundError "docx"))
    "/repo/SAM/generate_docs.py" ∅ ∅ None.

(** Sample inputs: a clock, one minute later, and an empty world. *)
Definition env0 : Env :=
  mkEnv (mkDatetime 2024 3 9 7 5 59) None "/repo/SAM/generate_docs.py" ∅ ∅ None.
Definition env1 : Env :=
  mkEnv (mkDatetime 2024 3 9 7 6 0) None "/repo/SAM/generate_docs.py" ∅ ∅ None.
Definition w0 : World := mkWorld ∅ [] [].


(** The texts of the paragraphs of a document that carry the style [sty],
    in order. *)
Definition styled_texts (sty : string) (doc : Document) : list string :=
  Paragraph_text <$> filter (λ p, style p = Some sty) doc.

(** The runs of a document, paragraph after paragraph. *)
Definition all_runs (doc : Document) : list Run :=
  doc ≫= runs.

(** An environment where the script is named without a directory. *)
Definition env_bare : Env :=
  mkEnv (mkDatetime 2024 3 9 7 5 59) None "generate_docs.py" ∅ ∅ None.

(** The clock readings [datetime.now()] returns on a running system: a
    four-digit year and calendar fields in their ranges. *)
Definition valid_clock (t : datetime) : Prop :=
  1000 <= year t <= 9999 ∧ 1 <= month t <= 12 ∧ 1 <= day t <= 31 ∧
  0 <= hour t <= 23 ∧ 0 <= minute t <= 59.

(** Reading a string of decimal digits back as a number. *)
Definition digit_value (c : ascii) : Z := Z.of_N (N_of_ascii c) - 48.

Fixpoint read_digits (acc : Z) (s : string) : Z :=
  match s with
  | "" => acc
  | String c r => read_digits (10 * acc + digit_value c) r
  end.

(** Texts made of printable ASCII characters only. *)
Definition plain_char (c : ascii) : bool :=
  let n := Z.of_nat (nat_of_ascii c) in (32 <=? n) && (n <? 127).

Fixpoint plain_text (s : string) : bool :=
  match s with
  | "" => true
  | String c r => plain_char c && plain_text r
  end.

(** [c in s] *)
Fixpoint contains (c : ascii) (s : string) : bool :=
  match s with
  | "" => false
  | String a r => bool_decide (a = c) || contains c r
  end.

(** * Properties *)

(** ** Strings *)

Lemma app_nil_string (b : string) : "" +:+ b = b.
Proof. reflexivity. Qed.

Lemma app_cons_string (x : ascii) (a b : string) :
  String x a +:+ b = String x (a +:+ b).
Proof. reflexivity. Qed.

Ltac app_string := rewrite ?app_cons_string, ?app_nil_string.

(** ** Paths *)

Section os_path.
Implicit Types (s a b : string) (c : ascii).

Lemma app_assoc_string a b s : (a +:+ b) +:+ s = a +:+ (b +:+ s).
Proof. induction a as [|x a IH]; app_string; [done|]. by rewrite IH. Qed.

Lemma length_app_string a b :
  String.length (a +:+ b) = (String.length a + String.length b)%nat.
Proof.
  induction a as [|x a IH]; app_string; cbn [String.length]; [done|].
  by rewrite IH.
Qed.

Lemma substring_prefix a b : substring 0 (String.length a) (a +:+ b) = a.
Proof.
  induction a as [|x a IH]; app_string; cbn [String.length substring].
  - by destruct b.
  - by rewrite IH.
Qed.

Lemma substring_all s : substring 0 (String.length s) s = s.
Proof.
  induction s as [|x s IH]; cbn [String.length substring]; [done|].
  by rewrite IH.
Qed.

Lemma substring_suffix a b :
  substring (String.length a) (String.length (a +:+ b) - String.length a) (a +:+ b) = b.
Proof.
  induction a as [|x a IH]; app_string; cbn [String.length substring].
  - rewrite Nat.sub_0_r. apply substring_all.
  - apply IH.
Qed.

Lemma rfind_lower c s : -1 <= rfind c s.
Proof.
  induction s as [|x s IH]; cbn; [done|].
  destruct (0 <=? rfind c s) eqn:Hk; [lia|]. case_decide; lia.
Qed.

Lemma rfind_app_found c a b :
  0 <= rfind c b → rfind c (a +:+ b) = Z.of_nat (String.length a) + rfind c b.
Proof.
  intros Hb. induction a as [|x a IH]; app_string; cbn [String.length rfind].
  - lia.
  - rewrite IH. destruct (0 <=? _) eqn:Hk; lia.
Qed.

Lemma rfind_app_absent c a b :
  rfind c b = -1 → rfind c (a +:+ b) = rfind c a.
Proof.
  intros Hb. induction a as [|x a IH]; app_string; cbn [rfind]; [done|].
  by rewrite IH.
Qed.

Lemma rfind_repeat_char c n :
  rfind c (repeat_char c (S n)) = Z.of_nat n.
Proof.
  induction n as [|n IH].
  - cbn. by rewrite decide_True.
  - change (repeat_char c (S (S n))) with (String c (repeat_char c (S n))).
    cbn [rfind]. rewrite IH. destruct (0 <=? _) eqn:Hk; lia.
Qed.

Lemma length_repeat_char c n : String.length (repeat_char c n) = n.
Proof.
  induction n as [|n IH]; cbn [repeat_char String.length]; [done|].
  by rewrite IH.
Qed.

Lemma endswith_repeat_char c n : endswith (repeat_char c (S n)) c = true.
Proof.
  induction n as [|n IH].
  - cbn. by rewrite bool_decide_eq_true.
  - change (repeat_char c (S (S n))) with (String c (repeat_char c (S n))).
    cbn [endswith]. exact IH.
Qed.

(** [rstrip] empties exactly the strings made of the stripped character. *)
Lemma rstrip_empty c s :
  rstrip c s = "" ↔ s = repeat_char c (String.length s).
Proof.
  induction s as [|x s IH]; cbn [rstrip String.length repeat_char]; [done|].
  case_decide as Hd.
  - destruct Hd as [Hr ->]. split; [|done]. intros _. f_equal. by apply IH.
  - split; [done|]. intros [= -> Hs]. destruct Hd. split; [|done]. by apply IH.
Qed.

Lemma rstrip_unchanged c s : endswith s c = false → rstrip c s = s.
Proof.
  induction s as [|x s IH]; [done|]. cbn [endswith rstrip].
  destruct s as [|y s].
  - intros Hx%bool_decide_eq_false. cbn. rewrite decide_False; [done|]. tauto.
  - intros Hs. rewrite (IH Hs). rewrite decide_False; [done|]. by intros [? _].
Qed.

Lemma rstrip_app_char c s : rstrip c (s +:+ String c "") = rstrip c s.
Proof.
  induction s as [|x s IH]; app_string; cbn [rstrip].
  - by rewrite decide_True.
  - by rewrite IH.
Qed.

Lemma rstrip_not_suffixed c s :
  rstrip c s = "" ∨ endswith (rstrip c s) c = false.
Proof.
  induction s as [|x s IH]; cbn [rstrip]; [by left|].
  case_decide as Hd; [by left|]. right.
  destruct (rstrip c s) as [|y r] eqn:Hr.
  - cbn. apply bool_decide_eq_false. intros ->. by destruct Hd.
  - destruct IH as [IH|IH]; [done|]. exact IH.
Qed.

(** A directory name is made of separators only, or does not end in one. *)
Lemma os_path_dirname_shape s :
  let d := os_path_dirname s in
  d = repeat_char sep (String.length d) ∨ (d ≠ "" ∧ endswith d sep = false).
Proof.
  cbn zeta. unfold os_path_dirname. cbn zeta.
  set (head := substring 0 _ s). case_decide as Hd.
  - destruct (rstrip_not_suffixed sep head) as [Hr|Hr].
    + left. by rewrite Hr.
    + destruct (decide (rstrip sep head = "")) as [He|He]; [left; by rewrite He|].
      by right.
  - left. destruct (decide (head = "")) as [->|Hne]; [done|].
    destruct (decide (head = repeat_char sep (String.length head))); [done|].
    destruct Hd. done.
Qed.

(** The directory of an absolute path is absolute. *)
Lemma os_path_dirname_isabs s :
  os_path_isabs s = true → os_path_isabs (os_path_dirname s) = true.
Proof.
  unfold os_path_isabs. destruct s as [|x s]; [done|]. cbn [startswith].
  intros ->%bool_decide_eq_true. unfold os_path_dirname. cbn zeta.
  assert (∃ k, Z.to_nat (rfind sep (String sep s) + 1) = S k) as [k ->].
  { cbn [rfind]. pose proof (rfind_lower sep s).
    destruct (0 <=? rfind sep s) eqn:Hk.
    - exists (Z.to_nat (rfind sep s + 1)). lia.
    - rewrite decide_True by done. by exists 0%nat. }
  cbn [substring]. set (h := substring 0 k s). case_decide as Hd; [|done].
  destruct Hd as [_ Hns]. cbn [rstrip].
  case_decide as Hr; [|done]. destruct Hr as [Hr _]. destruct Hns.
  cbn [String.length repeat_char]. f_equal. by apply rstrip_empty.
Qed.

Lemma startswith_absent c s : rfind c s = -1 → startswith s c = false.
Proof.
  destruct s as [|x s]; [done|]. cbn [rfind startswith].
  destruct (0 <=? rfind c s) eqn:Hk; [pose proof (rfind_lower c s); lia|].
  case_decide; [done|]. intros _. by apply bool_decide_eq_false.
Qed.

(** Joining a directory name and a file name without separator gives a
    path whose directory and base name are the two parts. *)
Lemma os_path_split_join d name :
  d = repeat_char sep (String.length d) ∨ (d ≠ "" ∧ endswith d sep = false) →
  rfind sep name = -1 →
  os_path_dirname (os_path_join d name) = d ∧
  os_path_basename (os_path_join d name) = name.
Proof.
  intros Hd Hname. unfold os_path_join.
  rewrite (startswith_absent _ _ Hname).
  destruct Hd as [Hd|[Hne Hend]].
  - destruct d as [|x d].
    + rewrite bool_decide_eq_true_2 by done. cbn [orb]. app_string.
      unfold os_path_dirname, os_path_basename. rewrite Hname. cbn [Z.add Z.to_nat].
      rewrite Nat.sub_0_r, substring_all. split; [|done].
      rewrite decide_False; [by destruct name|]. intros [H _]. by destruct name.
    + rewrite Hd. cbn [String.length]. rewrite endswith_repeat_char.
      rewrite bool_decide_eq_false_2 by done. cbn [orb].
      set (n := String.length d). set (dd := repeat_char sep (S n)).
      assert (Hlen : String.length dd = S n) by apply length_repeat_char.
      assert (Hi : Z.to_nat (rfind sep (dd +:+ name) + 1) = String.length dd).
      { rewrite (rfind_app_absent _ _ _ Hname). unfold dd.
        rewrite rfind_repeat_char, length_repeat_char. lia. }
      unfold os_path_dirname, os_path_basename. cbn zeta. rewrite Hi.
      rewrite substring_prefix, substring_suffix. split; [|done].
      rewrite decide_False; [done|]. intros [_ H]. apply H.
      by rewrite Hlen.
  - rewrite bool_decide_eq_false_2 by done. rewrite Hend. cbn [orb].
    set (ds := d +:+ String sep "").
    assert (Hout : d +:+ String sep "" +:+ name = ds +:+ name).
    { unfold ds. by rewrite app_assoc_string. }
    assert (Hi : Z.to_nat (rfind sep (ds +:+ name) + 1) = String.length ds).
    { unfold ds. rewrite app_assoc_string, rfind_app_found.
      - app_string. cbn [rfind]. rewrite Hname. cbn [Z.leb Z.compare].
        rewrite decide_True by done. rewrite length_app_string. cbn [String.length]. lia.
      - app_string. cbn [rfind]. rewrite Hname. cbn [Z.leb Z.compare].
        by rewrite decide_True. }
    assert (Hstrip : rstrip sep ds = d).
    { unfold ds. rewrite rstrip_app_char. by apply rstrip_unchanged. }
    unfold os_path_dirname, os_path_basename. cbn zeta. rewrite Hout, Hi.
    rewrite substring_prefix, substring_suffix. split; [|done].
    rewrite decide_True; [done|]. split.
    + unfold ds. by destruct d.
    + intros Hrep%rstrip_empty. congruence.
Qed.

(** The path the [__main__] block computes from an absolute [__file__]
    is absolute. *)
Lemma os_path_join_isabs d name :
  os_path_isabs d = true → os_path_isabs (os_path_join d name) = true.
Proof.
  unfold os_path_isabs, os_path_join. intros Hd.
  destruct (startswith name sep) eqn:Hn; [done|].
  destruct d as [|x d]; [done|].
  by destruct (bool_decide (String x d = "") || endswith (String x d) sep).
Qed.
End os_path.

(** ** Where the script writes *)

Section output_path.
Implicit Types (env : Env) (s d name : string).

Lemma os_path_dirname_relative s :
  os_path_isabs s = false → os_path_isabs (os_path_dirname s) = false.
Proof.
  unfold os_path_isabs, os_path_dirname. cbn zeta.
  destruct s as [|x s]; [done|]. cbn [startswith].
  intros Hx%bool_decide_eq_false.
  destruct (Z.to_nat (rfind sep (String x s) + 1)) as [|k]; [done|].
  cbn [substring]. set (h := substring 0 k s).
  case_decide as Hd.
  - cbn [rstrip]. rewrite decide_False by (intros [_ ?]; done).
    cbn [startswith]. by apply bool_decide_eq_false.
  - cbn [startswith]. by apply bool_decide_eq_false.
Qed.

Lemma os_path_dirname_isabs_eq s :
  os_path_isabs (os_path_dirname s) = os_path_isabs s.
Proof.
  destruct (os_path_isabs s) eqn:Habs.
  - by apply os_path_dirname_isabs.
  - by apply os_path_dirname_relative.
Qed.

Lemma os_path_join_isabs_eq d name :
  startswith name sep = false →
  os_path_isabs (os_path_join d name) = os_path_isabs d.
Proof.
  intros Hname. unfold os_path_isabs, os_path_join. rewrite Hname.
  destruct d as [|x d].
  - rewrite bool_decide_eq_true_2 by done. cbn [orb]. by rewrite app_nil_string.
  - by destruct (bool_decide (String x d = "") || endswith (String x d) sep).
Qed.

(** X10: whatever [__file__] is, the path the [__main__] block computes has the
    fixed file name as its base name and the directory of [__file__] as its
    directory, and it is absolute exactly when [__file__] is: the script
    never makes a relative location absolute. *)
Theorem out_path_alongside_script env :
  os_path_basename (out_path env) = "SAM_Project_Documentation.docx" ∧
  os_path_dirname (out_path env) = os_path_dirname (dunder_file env) ∧
  os_path_isabs (out_path env) = os_path_isabs (dunder_file env).
Proof.
  unfold out_path.
  destruct (os_path_split_join (os_path_dirname (dunder_file env)) OUTPUT_NAME)
    as [Hdir Hbase]; [apply os_path_dirname_shape|reflexivity|].
  split; [exact Hbase|]. split; [exact Hdir|].
  rewrite os_path_join_isabs_eq by reflexivity. apply os_path_dirname_isabs_eq.
Qed.

(** X11: when [__file__] names the script without any directory, the document is
    written under the bare file name, that is, relative to the working
    directory. *)
Theorem out_path_without_directory env :
  rfind sep (dunder_file env) = -1 →
  out_path env = "SAM_Project_Documentation.docx" ∧
  os_path_isabs (out_path env) = false.
Proof.
  intros Hfile. unfold out_path, os_path_dirname. rewrite Hfile.
  change (Z.to_nat (-1 + 1)) with 0%nat.
  replace (substring 0 0 (dunder_file env)) with "" by (by destruct (dunder_file env)).
  rewrite decide_False by (intros [? _]; done). split; reflexivity.
Qed.

Lemma out_path_without_directory_witness :
  out_path env_bare = "SAM_Project_Documentation.docx".
Proof. apply (out_path_without_directory env_bare). reflexivity. Defined.
End output_path.

(** ** The text of a run *)

Section run_text.
Implicit Types (text bfr content a b s : string).

Lemma app_nil_r_string s : s +:+ "" = s.
Proof. induction s as [|x s IH]; app_string; [done|]. by rewrite IH. Qed.

Lemma forbidden3_app (c : ascii) a b :
  forbidden3 c (a +:+ b) = false → forbidden3 c a = false.
Proof.
  destruct a as [|x [|y a]]; [done|done|]. by rewrite !app_cons_string.
Qed.

(** A valid text is made of valid pieces. *)
Lemma is_valid_xml_utf8_app a b :
  is_valid_xml_utf8 (a +:+ b) = true →
  is_valid_xml_utf8 a = true ∧ is_valid_xml_utf8 b = true.
Proof.
  induction a as [|x a IH]; app_string; [done|].
  cbn [is_valid_xml_utf8]. intros [Hx Hrest]%andb_prop.
  destruct (IH Hrest) as [Ha Hb]. split; [|done].
  rewrite Ha, andb_true_r.
  destruct (128 <=? Z.of_nat (nat_of_ascii x)); [|done].
  apply negb_true_iff, forbidden3_app with b. by apply negb_true_iff.
Qed.

Lemma flush_valid bfr content :
  is_valid_xml_utf8 bfr = true → flush bfr content = (None, content +:+ bfr).
Proof.
  intros Hv. unfold flush. case_decide as He.
  - subst. by rewrite app_nil_r_string.
  - by rewrite Hv.
Qed.

(** On a valid text the appender stores everything, and what it stores
    reads back as the text with carriage returns turned into line feeds. *)
Lemma add_text_valid text bfr content :
  is_valid_xml_utf8 (bfr +:+ text) = true →
  add_text text bfr content = (None, content +:+ bfr +:+ read_back text).
Proof.
  revert bfr content. induction text as [|c rest IH]; intros bfr content Hv.
  - cbn [add_text read_back]. rewrite app_nil_r_string in Hv.
    by rewrite flush_valid, app_nil_r_string.
  - cbn [add_text read_back].
    destruct (is_valid_xml_utf8_app _ _ Hv) as [Hbfr Hrest].
    assert (Hrest' : is_valid_xml_utf8 ("" +:+ rest) = true).
    { app_string. cbn [is_valid_xml_utf8] in Hrest. by apply andb_prop in Hrest as [_ ?]. }
    case_decide as Htab.
    { subst c. rewrite flush_valid, IH by done. app_string.
      rewrite decide_False by done.
      by rewrite !app_assoc_string. }
    case_decide as Hbr.
    { rewrite flush_valid, IH by done. app_string.
      rewrite !app_assoc_string. app_string.
      destruct Hbr as [->| ->]; [by rewrite decide_True|by rewrite decide_False]. }
    rewrite IH by (by rewrite app_assoc_string).
    rewrite decide_False by tauto. by rewrite !app_assoc_string.
Qed.

Lemma run_content_valid text :
  is_valid_xml_utf8 text = true → add_text text "" "" = (None, read_back text).
Proof. intros Hv. by rewrite add_text_valid. Qed.

Lemma plain_text_app a b : plain_text (a +:+ b) = plain_text a && plain_text b.
Proof.
  induction a as [|x a IH]; app_string; [done|]. cbn [plain_text].
  by rewrite IH, andb_assoc.
Qed.

Lemma plain_char_valid (c : ascii) :
  plain_char c = true →
  (128 <=? Z.of_nat (nat_of_ascii c)) = false ∧ xmlIsChar_ch c = true ∧ c ≠ CR.
Proof.
  unfold plain_char, xmlIsChar_ch. cbn zeta. intros Hc. repeat split; [lia|lia|].
  intros ->. vm_compute in Hc. discriminate.
Qed.

(** A text of printable ASCII characters is valid and reads back as it is. *)
Lemma plain_text_valid s :
  plain_text s = true → is_valid_xml_utf8 s = true ∧ read_back s = s.
Proof.
  induction s as [|c s IH]; [done|]. cbn [plain_text is_valid_xml_utf8 read_back].
  intros [Hc Hs]%andb_prop. destruct (IH Hs) as [Hv Hr].
  destruct (plain_char_valid c Hc) as (-> & -> & Hcr).
  by rewrite Hv, Hr, decide_False.
Qed.

Lemma plain_text_string_of_uint (d : Decimal.uint) :
  plain_text (NilEmpty.string_of_uint d) = true.
Proof. induction d; cbn [NilEmpty.string_of_uint plain_text]; by rewrite ?IHd. Qed.

Lemma plain_text_format_d (n : Z) : plain_text (format_d n) = true.
Proof.
  assert (Hu : ∀ d, plain_text (NilZero.string_of_uint d) = true).
  { intros d. unfold NilZero.string_of_uint.
    destruct d; try apply plain_text_string_of_uint. reflexivity. }
  destruct n; cbn [format_d]; [done|apply Hu|].
  rewrite plain_text_app, Hu. reflexivity.
Qed.

Lemma plain_text_zeros (k : nat) :
  plain_text (String.concat "" (replicate k "0")) = true.
Proof.
  induction k as [|k IH]; [done|]. destruct k as [|k]; [done|].
  change (String.concat "" (replicate (S (S k)) "0"))
    with ("0" +:+ "" +:+ String.concat "" (replicate (S k) "0")).
  by rewrite !plain_text_app, IH.
Qed.

Lemma plain_text_zfill (width : nat) s :
  plain_text s = true → plain_text (zfill width s) = true.
Proof.
  intros Hs. unfold zfill. by rewrite plain_text_app, Hs, plain_text_zeros.
Qed.

(** The stamp of the cover is printable for every clock reading. *)
Lemma plain_text_stamp (t : datetime) :
  plain_text ("Generated: " +:+ strftime t "%Y-%m-%d %H:%M") = true.
Proof.
  change (strftime t "%Y-%m-%d %H:%M")
    with (zfill 4 (format_d (year t)) +:+ String "-"
            (zfill 2 (format_d (month t)) +:+ String "-"
               (zfill 2 (format_d (day t)) +:+ String " "
                  (zfill 2 (format_d (hour t)) +:+ String ":"
                     (zfill 2 (format_d (minute t)) +:+ ""))))).
  repeat first
    [ rewrite plain_text_app
    | rewrite plain_text_zfill by apply plain_text_format_d
    | progress cbn [plain_text andb] ].
  reflexivity.
Qed.
End run_text.

(** ** Running the library operations *)

Ltac py_unfold :=
  unfold mbind, Py_bind, mret, Py_ret, get, modify, raise.

Section library.
Implicit Types (doc : Document) (text : string) (items : list string).

Lemma Py_bind_run {S A B} (m : Py S A) (k : A → Py S B) (s : S) :
  (m ≫= k) s
  = match m s with
    | (inl e, s') => (inl e, s')
    | (inr a, s') => k a s'
    end.
Proof. reflexivity. Qed.

Lemma alter_end (f : Paragraph → Paragraph) doc (para : Paragraph) :
  alter f (length doc) (doc ++ [para]) = doc ++ [f para].
Proof.
  replace (length doc) with (length doc + 0)%nat by lia.
  by rewrite alter_app_r.
Qed.

Lemma lookup_end doc (para : Paragraph) :
  (doc ++ [para]) !! length doc = Some para.
Proof. by rewrite list_lookup_middle. Qed.

Lemma alter_run_end (f : Run → Run) (para : Paragraph) (r : Run) :
  alter_run f (length (runs para)) (push_run r para) = push_run (f r) para.
Proof.
  unfold alter_run, push_run. cbn [runs style alignment]. f_equal.
  replace (length (runs para)) with (length (runs para) + 0)%nat by lia.
  by rewrite alter_app_r.
Qed.

(** What [paragraph.add_run(text)] does to the last paragraph, whether the
    library accepts the text or not. *)
Lemma Paragraph_add_run_end doc para text :
  Paragraph_add_run (length doc) text (doc ++ [para])
  = if decide (text = "") then
      (inr (length doc, length (runs para)),
       doc ++ [push_run (mkRun "" None None) para])
    else
      match add_text text "" "" with
      | (None, content) =>
          (inr (length doc, length (runs para)),
           doc ++ [push_run (mkRun content None None) para])
      | (Some e, content) =>
          (inl e, doc ++ [push_run (mkRun content None None) para])
      end.
Proof.
  unfold Paragraph_add_run, Run_set_text. py_unfold.
  rewrite lookup_end, alter_end. cbn [from_option fst snd].
  case_decide; [done|].
  rewrite alter_end, alter_run_end. cbn [run_bold run_italic].
  by destruct (add_text text "" "") as [[e|] content].
Qed.

(** What [document.add_paragraph(text, style)] does, whether the library
    accepts the text or not: a refused text leaves the new paragraph
    behind, without its style. *)
Lemma Document_add_paragraph_outcome text sty doc :
  Document_add_paragraph text sty doc
  = if decide (text = "") then
      (inr (length doc), doc ++ [mkParagraph [] sty None])
    else
      match add_text text "" "" with
      | (None, content) =>
          (inr (length doc), doc ++ [mkParagraph [mkRun content None None] sty None])
      | (Some e, content) =>
          (inl e, doc ++ [mkParagraph [mkRun content None None] None None])
      end.
Proof.
  unfold Document_add_paragraph, Paragraph_set_style.
  rewrite Py_bind_run. unfold get at 1. cbn beta iota zeta.
  rewrite Py_bind_run. unfold modify at 1. cbn beta iota.
  rewrite Py_bind_run.
  destruct (decide (text = "")) as [->|Hne].
  - unfold mret at 1, Py_ret. cbn beta iota.
    destruct sty as [name|]; py_unfold; [|done]. by rewrite alter_end.
  - rewrite Py_bind_run, Paragraph_add_run_end, decide_False by done.
    destruct (add_text text "" "") as [[e|] content]; [done|].
    unfold mret at 1, Py_ret. cbn beta iota.
    destruct sty as [name|]; py_unfold; [|done]. by rewrite alter_end.
Qed.

Lemma Document_add_paragraph_run text sty doc :
  is_valid_xml_utf8 text = true →
  Document_add_paragraph text sty doc
  = (inr (length doc),
     doc ++ [mkParagraph
               (if decide (text = "") then [] else [mkRun (read_back text) None None])
               sty None]).
Proof.
  intros Hv. rewrite Document_add_paragraph_outcome.
  case_decide; [done|]. by rewrite run_content_valid.
Qed.

(** What [add_paragraph] does, whether the library accepts the text or
    not: a refused text leaves the new paragraph behind with the run the
    library had started, its format and the alignment not yet set. *)
Lemma add_paragraph_outcome text (bold italic : bool) (align : option string) doc :
  add_paragraph text bold italic align doc
  = match (if decide (text = "") then (None, "") else add_text text "" "") with
    | (None, content) =>
        (inr (length doc),
         doc ++ [mkParagraph [mkRun content (Some bold) (Some italic)] None
                   (alignment_of align)])
    | (Some e, content) =>
        (inl e, doc ++ [mkParagraph [mkRun content None None] None None])
    end.
Proof.
  unfold add_paragraph, alignment_of.
  rewrite Py_bind_run, Document_add_paragraph_outcome.
  destruct (decide ("" = "")) as [_|?]; [|done].
  rewrite Py_bind_run, Paragraph_add_run_end.
  assert (Hrest : ∀ content,
    (Run_set_bold (length doc, 0%nat) bold
       ≫= λ _, Run_set_italic (length doc, 0%nat) italic
       ≫= λ _, (if decide (align = Some "center")
                 then Paragraph_set_alignment (length doc) CENTER
                 else if decide (align = Some "right")
                      then Paragraph_set_alignment (length doc) RIGHT
                      else mret ())
       ≫= λ _, mret (length doc))
      (doc ++ [push_run (mkRun content None None) (mkParagraph [] None None)])
    = (inr (length doc),
       doc ++ [mkParagraph [mkRun content (Some bold) (Some italic)] None
                 (if decide (align = Some "center") then Some CENTER
                  else if decide (align = Some "right") then Some RIGHT else None)])).
  { intros content. unfold Run_set_bold, Run_set_italic, Paragraph_set_alignment.
    py_unfold. cbn [fst snd]. rewrite !alter_end.
    repeat case_decide; py_unfold; rewrite ?alter_end; done. }
  cbn [runs length].
  destruct (decide (text = "")) as [->|Hne]; [apply Hrest|].
  destruct (add_text text "" "") as [[e|] content]; [done|apply Hrest].
Qed.

Lemma add_paragraph_run text (bold italic : bool) (align : option string) doc :
  is_valid_xml_utf8 text = true →
  add_paragraph text bold italic align doc
  = (inr (length doc),
     doc ++ [mkParagraph [mkRun (read_back text) (Some bold) (Some italic)] None
               (alignment_of align)]).
Proof.
  intros Hv. rewrite add_paragraph_outcome.
  case_decide; [by subst|]. by rewrite run_content_valid.
Qed.

Lemma for_each_add_paragraph sty items doc :
  Forall (λ item, is_valid_xml_utf8 item = true) items →
  for_each items (λ item, Document_add_paragraph item (Some sty);; mret tt) doc
  = (inr tt, doc ++ (list_item sty <$> items)).
Proof.
  intros Hv. revert doc.
  induction Hv as [|item items Hitem Hitems IH]; intros doc.
  - cbn. by rewrite app_nil_r.
  - cbn [for_each]. rewrite !Py_bind_run, Document_add_paragraph_run by done.
    unfold mret at 1, Py_ret. rewrite IH.
    by rewrite fmap_cons, <- app_assoc.
Qed.

Lemma add_bullets_run items doc :
  Forall (λ item, is_valid_xml_utf8 item = true) items →
  add_bullets items doc = (inr tt, doc ++ (list_item "List Bullet" <$> items)).
Proof. apply for_each_add_paragraph. Qed.

Lemma add_numbered_run items doc :
  Forall (λ item, is_valid_xml_utf8 item = true) items →
  add_numbered items doc = (inr tt, doc ++ (list_item "List Number" <$> items)).
Proof. apply for_each_add_paragraph. Qed.

(** Whatever the items, the loop only appends, and what it appends carries
    the list style or, for a refused item, no style. *)
Lemma for_each_add_paragraph_appends sty items doc :
  ∃ tail,
    (for_each items (λ item, Document_add_paragraph item (Some sty);; mret tt) doc).2
    = doc ++ tail ∧
    Forall (λ p, style p = Some sty ∨ style p = None) tail.
Proof.
  revert doc. induction items as [|item items IH]; intros doc.
  - exists []. cbn. by rewrite app_nil_r.
  - cbn [for_each]. rewrite !Py_bind_run, Document_add_paragraph_outcome.
    assert (Hok : ∀ para, style para = Some sty →
      ∃ tail, (for_each items
                 (λ item, Document_add_paragraph item (Some sty);; mret tt)
                 (doc ++ [para])).2 = doc ++ tail ∧
              Forall (λ p, style p = Some sty ∨ style p = None) tail).
    { intros para Hpara. destruct (IH (doc ++ [para])) as (tail & Heq & Htail).
      exists (para :: tail). rewrite Heq, <- app_assoc. split; [done|].
      constructor; [by left|done]. }
    case_decide.
    + unfold mret at 1, Py_ret. by apply Hok.
    + destruct (add_text item "" "") as [[e|] content].
      * eexists. split; [done|]. constructor; [by right|done].
      * unfold mret at 1, Py_ret. by apply Hok.
Qed.

Lemma for_each_app {S A} (xs ys : list A) (body : A → Py S unit) (s : S) :
  for_each (xs ++ ys) body s = (for_each xs body;; for_each ys body) s.
Proof.
  revert s. induction xs as [|x xs IH]; intros s; [done|].
  cbn [app for_each]. rewrite !Py_bind_run.
  destruct (body x s) as [[e|[]] s']; [done|]. by rewrite IH, Py_bind_run.
Qed.

Lemma Paragraph_text_list_item sty item :
  Paragraph_text (list_item sty item) = read_back item.
Proof.
  unfold Paragraph_text, list_item. case_decide; subst; cbn; [done|].
  by destruct (read_back item).
Qed.

Lemma read_back_without_CR text : contains CR text = false → read_back text = text.
Proof.
  induction text as [|c rest IH]; [done|]. cbn [contains read_back].
  intros [Hc Hrest]%orb_false_elim. apply bool_decide_eq_false in Hc.
  by rewrite IH, decide_False.
Qed.
End library.

(** ** The helpers *)

Section helpers.
Implicit Types (doc : Document) (text : string) (items : list string).

(** C5, as amended: for a text the library accepts, [add_paragraph] appends
    one paragraph, whatever the alignment value; it is centred for
    ["center"], right-aligned for ["right"], and for every other value
    ([None] and unrecognised strings included) its alignment is left unset,
    so that it keeps the alignment of its style. *)
Theorem add_paragraph_alignment text (bold italic : bool)
    (align : option string) doc :
  is_valid_xml_utf8 text = true →
  ∃ para,
    add_paragraph text bold italic align doc = (inr (length doc), doc ++ [para]) ∧
    (align = Some "center" → alignment para = Some CENTER) ∧
    (align = Some "right" → alignment para = Some RIGHT) ∧
    (align ≠ Some "center" → align ≠ Some "right" → alignment para = None).
Proof.
  intros Hv. eexists. split; [by apply add_paragraph_run|].
  unfold alignment_of; cbn [alignment].
  repeat split; intros; repeat case_decide; simplify_eq; done.
Qed.

Lemma add_paragraph_alignment_witness :
  ∃ para,
    add_paragraph "Centred" false false (Some "center") [] = (inr 0%nat, [para]) ∧
    alignment para = Some CENTER.
Proof.
  destruct (add_paragraph_alignment "Centred" false false (Some "center") [])
    as (para & Hrun & Hcenter & _).
  - reflexivity.
  - exists para. split; [exact Hrun|by apply Hcenter].
Defined.

(** C5, as stated, fails: with a text that holds a NUL character the call
    raises, and the paragraph it leaves behind is not centred although
    ["center"] was asked for. *)
Lemma nul_text_paragraph_not_centred :
  ∃ e para,
    add_paragraph nul_text false false (Some "center") [] = (inl e, [para]) ∧
    alignment para ≠ Some CENTER.
Proof. exists xml_error, (stray_paragraph nul_text). by vm_compute. Qed.

(** C6, as amended: for items the library accepts, [add_bullets] appends
    exactly one ["List Bullet"] paragraph per element of [items], and
    [add_numbered] exactly one ["List Number"] paragraph per element, the
    i-th paragraph reading back the i-th item (a carriage return as a line
    feed). *)
Theorem add_bullets_add_numbered_items items doc :
  Forall (λ item, is_valid_xml_utf8 item = true) items →
  (∃ blocks,
     add_bullets items doc = (inr tt, doc ++ blocks) ∧
     length blocks = length items ∧
     ∀ i : nat, (λ p, (style p, Paragraph_text p)) <$> blocks !! i
                = (λ item, (Some "List Bullet", read_back item)) <$> items !! i) ∧
  (∃ blocks,
     add_numbered items doc = (inr tt, doc ++ blocks) ∧
     length blocks = length items ∧
     ∀ i : nat, (λ p, (style p, Paragraph_text p)) <$> blocks !! i
                = (λ item, (Some "List Number", read_back item)) <$> items !! i).
Proof.
  intros Hv. split.
  all: eexists; split; [by apply for_each_add_paragraph|].
  all: split; [by rewrite length_fmap|].
  all: intros i; rewrite list_lookup_fmap.
  all: destruct (items !! i) as [item|]; [|done].
  all: cbn [fmap option_fmap option_map].
  all: by rewrite Paragraph_text_list_item.
Qed.

Lemma add_bullets_add_numbered_items_witness :
  ∃ blocks, add_bullets ["one"; "two"] [] = (inr tt, blocks) ∧ length blocks = 2%nat.
Proof.
  destruct (add_bullets_add_numbered_items ["one"; "two"] [])
    as [(blocks & Hrun & Hlen & _) _].
  - repeat constructor.
  - exists blocks. by split.
Defined.

(** C6, as stated, fails: with a NUL character in the second of three
    items, [add_bullets] raises there; it leaves the first item and one
    paragraph without style, and the third item is never appended. *)
Lemma add_bullets_not_for_every_list :
  ∃ e,
    add_bullets ["a"; nul_text; "b"] []
    = (inl e, [list_item "List Bullet" "a"; stray_paragraph nul_text]) ∧
    style (stray_paragraph nul_text) ≠ Some "List Bullet".
Proof. exists xml_error. by vm_compute. Qed.

(** C8: with an empty list of items [add_bullets] and [add_numbered] leave
    the document as it is. *)
Theorem add_bullets_add_numbered_empty (doc : Document) :
  add_bullets [] doc = (inr tt, doc) ∧ add_numbered [] doc = (inr tt, doc).
Proof. split; reflexivity. Qed.

(** C10, as amended: for a text the library accepts, the paragraph
    [add_paragraph] appends has exactly one run; its text reads back as the
    [text] argument with every carriage return turned into a line feed, so
    as the argument itself when it has none; its bold and italic properties
    are set explicitly to the arguments; the reference returned is the one
    of that paragraph. *)
Theorem add_paragraph_single_run text (bold italic : bool)
    (align : option string) doc :
  is_valid_xml_utf8 text = true →
  ∃ (p : ParagraphRef) (para : Paragraph) (doc' : Document),
    add_paragraph text bold italic align doc = (inr p, doc') ∧
    doc' = doc ++ [para] ∧
    doc' !! p = Some para ∧
    runs para = [mkRun (read_back text) (Some bold) (Some italic)] ∧
    (contains CR text = false → read_back text = text).
Proof.
  intros Hv. do 3 eexists. split; [by apply add_paragraph_run|].
  split; [done|]. split; [apply lookup_end|]. split; [done|].
  apply read_back_without_CR.
Qed.

Lemma add_paragraph_single_run_witness :
  ∃ p para doc',
    add_paragraph "Prerequisites:" false false None [] = (inr p, doc') ∧
    doc' !! p = Some para ∧
    runs para = [mkRun "Prerequisites:" (Some false) (Some false)].
Proof.
  destruct (add_paragraph_single_run "Prerequisites:" false false None [])
    as (p & para & doc' & Hrun & _ & Hp & Hruns & Hsame).
  - reflexivity.
  - exists p, para, doc'. split; [exact Hrun|]. split; [exact Hp|].
    rewrite Hruns, Hsame; reflexivity.
Defined.

(** C10, as stated, fails: with a NUL character the call raises and leaves
    a paragraph whose run has neither bold nor italic set; with a carriage
    return the call returns, and the text of the run is not the argument. *)
Lemma nul_or_CR_text_run_differs :
  (∃ e,
     add_paragraph nul_text true true None []
     = (inl e, [mkParagraph [mkRun "" None None] None None])) ∧
  (∃ para,
     add_paragraph ("a" +:+ String CR "b") false false None [] = (inr 0%nat, [para]) ∧
     Paragraph_text para ≠ "a" +:+ String CR "b").
Proof.
  split.
  - exists xml_error. by vm_compute.
  - eexists. split; [by vm_compute|]. by vm_compute.
Qed.
End helpers.

(** ** generate_doc *)

Ltac abstract_stamp env :=
  unfold generated_paragraph, stamp_format;
  generalize (strftime (datetime_now env) "%Y-%m-%d %H:%M"); intros stamp.

Section generate_doc.
Implicit Types (env : Env) (path : string) (w : World) (doc : Document).

(** The sections never raise; what they build is the document of the
    sample run with the stamp of this run in its second paragraph.  The
    stamp is printable whatever the clock, so the library accepts it. *)
Lemma generate_doc_sections_stamped env :
  generate_doc_sections env Document_init
  = (inr tt, <[1%nat := generated_paragraph (datetime_now env)]> (built env0)).
Proof.
  unfold generate_doc_sections. rewrite Py_bind_run.
  replace (add_heading "Segment Anything Model (SAM) - Project Documentation" 0
             Document_init)
    with (@inr exn unit tt,
          [mkParagraph
             [mkRun "Segment Anything Model (SAM) - Project Documentation" None None]
             (Some "Title") None])
    by (vm_compute; reflexivity).
  cbv beta iota. rewrite Py_bind_run.
  destruct (plain_text_valid _ (plain_text_stamp (datetime_now env))) as [Hv Hr].
  rewrite (add_paragraph_run _ _ _ _ _ Hv), Hr. cbv beta iota.
  abstract_stamp env. vm_compute. reflexivity.
Qed.

Lemma built_stamped env :
  built env = <[1%nat := generated_paragraph (datetime_now env)]> (built env0).
Proof. unfold built at 1. by rewrite generate_doc_sections_stamped. Qed.

Lemma generate_doc_sections_run env :
  generate_doc_sections env Document_init = (inr tt, built env).
Proof. by rewrite built_stamped, generate_doc_sections_stamped. Qed.

Lemma generate_doc_run env path w :
  generate_doc env path w = Document_save env (built env) path w.
Proof. unfold generate_doc. by rewrite generate_doc_sections_run. Qed.

Lemma generate_doc_writable env path w :
  path ∉ unwritable env →
  path ∉ write_fails env →
  generate_doc env path w
  = (inr tt, mkWorld (<[path := Docx (built env)]> (files w)) (stdout w) (stderr w)).
Proof.
  intros Hw Hf. rewrite generate_doc_run. unfold Document_save.
  by rewrite !decide_False.
Qed.

Lemma generate_doc_unwritable env path w :
  path ∈ unwritable env → generate_doc env path w = (inl (OSError path), w).
Proof.
  intros Hw. rewrite generate_doc_run. unfold Document_save.
  by rewrite decide_True.
Qed.

Lemma generate_doc_write_fails env path w :
  path ∉ unwritable env →
  path ∈ write_fails env →
  generate_doc env path w
  = (inl (OSError path),
     mkWorld (<[path := Truncated]> (files w)) (stdout w) (stderr w)).
Proof.
  intros Hw Hf. rewrite generate_doc_run. unfold Document_save.
  by rewrite decide_False, decide_True.
Qed.

Lemma produced_built env path w doc :
  produced env path w = Some doc → doc = built env.
Proof.
  unfold produced.
  destruct (decide (path ∈ unwritable env)) as [Hw|Hw].
  { by rewrite generate_doc_unwritable. }
  destruct (decide (path ∈ write_fails env)) as [Hf|Hf].
  { by rewrite generate_doc_write_fails. }
  rewrite generate_doc_writable by done. cbn [files].
  rewrite lookup_insert_eq. congruence.
Qed.

Lemma built_shape :
  ∃ title rest, ∀ env,
    built env = title :: generated_paragraph (datetime_now env) :: rest.
Proof.
  exists (default (mkParagraph [] None None) (head (built env0))),
    (drop 2 (built env0)).
  intros env. rewrite built_stamped. abstract_stamp env.
  vm_compute. reflexivity.
Qed.

Lemma strftime_same_minute (t1 t2 : datetime) :
  same_minute t1 t2 → strftime t1 stamp_format = strftime t2 stamp_format.
Proof.
  destruct t1, t2. intros (? & ? & ? & ? & ?). cbn in *. subst. reflexivity.
Qed.

(** C1, as amended: a successful run leaves a document with exactly one
    title-level heading followed by exactly eleven level-1 headings, the
    sections 1 to 10 and the appendix, in the order of the source. *)
Theorem generate_doc_headings env path w doc :
  produced env path w = Some doc →
  headings doc =
    [(0, "Segment Anything Model (SAM) - Project Documentation");
     (1, "1. Executive Summary");
     (1, "2. Scope & Objectives");
     (1, "3. Architecture Overview");
     (1, "4. Key Directories & Files");
     (1, "5. Setup & Installation");
     (1, "6. Usage - Python");
     (1, "7. ONNX & Web Demo");
     (1, "8. Data Flow");
     (1, "9. Quality, Performance, and Risks");
     (1, "10. Roadmap & Next Steps");
     (1, "Appendix A: References")].
Proof.
  intros ->%produced_built. rewrite built_stamped. abstract_stamp env.
  vm_compute. reflexivity.
Qed.

Lemma generate_doc_headings_witness :
  length (headings (built env0)) = 12%nat.
Proof.
  rewrite (generate_doc_headings env0 "/repo/SAM/SAM_Project_Documentation.docx"
             w0 (built env0)).
  - reflexivity.
  - vm_compute. reflexivity.
Defined.

(** C1, as stated, fails: the document of a successful run does not have
    a title followed by exactly ten level-1 headings. *)
Lemma generate_doc_ten_headings_false :
  ∃ doc,
    produced env0 "/repo/SAM/SAM_Project_Documentation.docx" w0 = Some doc ∧
    length (filter (λ h, h.1 = 1) (headings doc)) = 11%nat ∧
    ¬ ∃ title hs, headings doc = (0, title) :: hs ∧ length hs = 10%nat.
Proof.
  exists (built env0). split; [by vm_compute|]. split; [by vm_compute|].
  intros (title & hs & Heq & Hlen).
  apply (f_equal length) in Heq. cbn [length] in Heq. rewrite Hlen in Heq.
  vm_compute in Heq. discriminate.
Qed.

(** C7: in the document of a successful run the list blocks are, in
    order, the literal lists of the source with their items in order; the
    section Scope & Objectives holds one bulleted list of exactly four
    items, the first being the SAM core components item. *)
Theorem generate_doc_list_blocks env path w doc :
  produced env path w = Some doc →
  list_blocks doc =
    [("List Bullet",
      ["Outcome: Generate high-quality object masks from images with minimal prompts";
       "Deliverables: Python package, demo web app, example notebooks, output masks";
       "Stakeholders: PM, ML/Software Engineers";
       "Status: Ready for local runs and demonstrations"]);
     ("List Bullet",
      ["Integrate SAM core components for promptable segmentation";
       "Provide automatic mask generation utility";
       "Export model to ONNX and demo browser inference";
       "Offer notebooks for common usage patterns"]);
     ("List Number",
      ["Python package (`segment_anything/`): model, encoders, decoders, utilities";
       "Scripts (`scripts/`): automatic mask generator, ONNX export";
       "Notebooks (`notebooks/`): runnable examples";
       "Web demo (`segment-anything/demo/`): React + TypeScript UI";
       "Artifacts (`output_dir/`): generated masks and overlays"]);
     ("List Bullet",
      ["segment_anything/modeling/sam.py: SAM model assembly";
       "segment_anything/predictor.py: High-level predictor API";
       "segment_anything/automatic_mask_generator.py: Batch/auto mask generation";
       "segment_anything/utils/onnx.py: ONNX export helpers";
       "scripts/amg.py: CLI for automatic mask generation";
       "scripts/export_onnx_model.py: Export to ONNX";
       "segment-anything/demo/src: Frontend demo application";
       "output_dir/mask/*.png: Generated masks";
       "output_dir/mask_overlay.png: Composite overlay"]);
     ("List Bullet",
      ["Python 3.9+ with pip";
       "Node.js 16+ (for web demo)";
       "GPU optional; CPU works for demos (slower)"]);
     ("List Bullet",
      ["Input image loaded and preprocessed (transforms)";
       "Prompt encoding (points/boxes/masks)";
       "Image encoding via vision transformer";
       "Mask decoding conditioned on prompts";
       "Post-processing and thresholding to produce binary masks"]);
     ("List Bullet",
      ["Deterministic inference given fixed prompts";
       "Performance depends on model size and hardware";
       "Memory use may be high for large images";
       "ONNX runtime on CPU may be slow; prefer GPU if available"]);
     ("List Bullet",
      ["Add CLI for promptable single-image segmentation";
       "Dockerize demo and backend for easier deployment";
       "Provide evaluation scripts and metrics";
       "Integrate continuous testing and linting in CI"]);
     ("List Bullet",
      ["README.md for overall guidance";
       "Notebooks for hands-on examples";
       "Demo `README.md` for web UI"])] ∧
  list_blocks (section_body "2. Scope & Objectives" doc) =
    [("List Bullet",
      ["Integrate SAM core components for promptable segmentation";
       "Provide automatic mask generation utility";
       "Export model to ONNX and demo browser inference";
       "Offer notebooks for common usage patterns"])].
Proof.
  intros ->%produced_built. rewrite built_stamped. abstract_stamp env.
  split; vm_compute; reflexivity.
Qed.

Lemma generate_doc_list_blocks_witness :
  length (list_blocks (section_body "2. Scope & Objectives" (built env0))) = 1%nat.
Proof.
  destruct (generate_doc_list_blocks env0 "/repo/SAM/SAM_Project_Documentation.docx"
              w0 (built env0)) as [_ ->].
  - vm_compute. reflexivity.
  - reflexivity.
Defined.

(** C9: whatever the two environments, both runs append their blocks
    without failing, and the second sequence is the first one with the
    block at position 1 replaced; that block is the cover's Generated
    paragraph, whose text embeds the run's clock and whose formatting is
    the same in both. *)
Theorem generate_doc_runs_differ_in_stamp_only (enva envb : Env) :
  ∃ da db : Document,
    generate_doc_sections enva Document_init = (inr tt, da) ∧
    generate_doc_sections envb Document_init = (inr tt, db) ∧
    da !! 1%nat = Some (generated_paragraph (datetime_now enva)) ∧
    db !! 1%nat = Some (generated_paragraph (datetime_now envb)) ∧
    db = <[1%nat := generated_paragraph (datetime_now envb)]> da.
Proof.
  exists (built enva), (built envb).
  split; [apply generate_doc_sections_run|].
  split; [apply generate_doc_sections_run|].
  destruct built_shape as (title & rest & Hshape).
  rewrite !Hshape. done.
Qed.

(** C2, as amended: two successful runs with the same output path whose
    clocks read the same minute write the same document body. *)
Theorem generate_doc_same_minute (enva envb : Env) path (wa wb : World)
    (da db : Document) :
  same_minute (datetime_now enva) (datetime_now envb) →
  produced enva path wa = Some da →
  produced envb path wb = Some db →
  da = db.
Proof.
  intros Hmin ->%produced_built ->%produced_built.
  destruct built_shape as (title & rest & Hshape).
  rewrite !Hshape. unfold generated_paragraph.
  by rewrite (strftime_same_minute _ _ Hmin).
Qed.

Lemma generate_doc_same_minute_witness :
  built env0 = built (mkEnv (mkDatetime 2024 3 9 7 5 0) None "/x.py" ∅ ∅ None).
Proof.
  apply (generate_doc_same_minute env0
           (mkEnv (mkDatetime 2024 3 9 7 5 0) None "/x.py" ∅ ∅ None)
           "/out.docx" w0 w0).
  - vm_compute. done.
  - vm_compute. reflexivity.
  - vm_compute. reflexivity.
Defined.

(** C2, as stated, fails: two runs on the same output path, from the same
    world, write different documents when the clock has moved on. *)
Lemma generate_doc_not_reproducible :
  ∃ da db,
    produced env0 "/repo/SAM/SAM_Project_Documentation.docx" w0 = Some da ∧
    produced env1 "/repo/SAM/SAM_Project_Documentation.docx" w0 = Some db ∧
    da ≠ db.
Proof.
  exists (built env0), (built env1).
  split; [by vm_compute|]. split; [by vm_compute|].
  intros Heq. apply (f_equal (λ d, Paragraph_text <$> d !! 1%nat)) in Heq.
  vm_compute in Heq. discriminate.
Qed.
End generate_doc.

(** ** The script *)

Section script.
Implicit Types (env : Env) (w : World).

(** Every way the [__main__] block can end. *)
Lemma main_outcome env w :
  module_body env "__main__" w
  = match docx_import env with
    | Some exc =>
        (inl (if is_Exception exc then SystemExit missing_dependency else exc), w)
    | None =>
        if decide (out_path env ∈ unwritable env) then
          (inl (OSError (out_path env)), w)
        else if decide (out_path env ∈ write_fails env) then
          (inl (OSError (out_path env)),
           mkWorld (<[out_path env := Truncated]> (files w)) (stdout w) (stderr w))
        else
          match stdout_error env with
          | Some e =>
              (inl e,
               mkWorld (<[out_path env := Docx (built env)]> (files w))
                 (stdout w) (stderr w))
          | None =>
              (inr tt,
               mkWorld (<[out_path env := Docx (built env)]> (files w))
                 (stdout w ++ ["Wrote documentation to: " +:+ out_path env])
                 (stderr w))
          end
    end.
Proof.
  unfold module_body. destruct (docx_import env) as [exc|].
  { by destruct (is_Exception exc). }
  rewrite decide_True by done. fold (out_path env). rewrite Py_bind_run.
  destruct (decide (out_path env ∈ unwritable env)) as [Hw|Hw].
  { by rewrite generate_doc_unwritable. }
  destruct (decide (out_path env ∈ write_fails env)) as [Hf|Hf].
  { by rewrite generate_doc_write_fails. }
  rewrite generate_doc_writable by done. unfold print.
  by destruct (stdout_error env).
Qed.

(** C3: when importing python-docx raises an exception, the module stops
    with [SystemExit] carrying the missing-dependency message; the process
    ends with status 1 and that message on its error stream; no file is
    written and nothing is printed. *)
Theorem missing_dependency_exits env (name : string) w (exc : exn) :
  docx_import env = Some exc →
  is_Exception exc = true →
  module_body env name w
    = (inl (SystemExit
         "Missing dependency 'python-docx'. Please install it: pip install python-docx"),
       w) ∧
  run_script env w
    = (1, mkWorld (files w) (stdout w)
            (stderr w ++
               [Message
                  "Missing dependency 'python-docx'. Please install it: pip install python-docx"])).
Proof.
  intros Himp Hexc.
  assert (Hbody : ∀ n, module_body env n w = (inl (SystemExit missing_dependency), w)).
  { intros n. unfold module_body. by rewrite Himp, Hexc. }
  split; [apply Hbody|]. unfold run_script. by rewrite Hbody.
Qed.

Lemma missing_dependency_exits_witness :
  files (run_script env_missing w0).2 = ∅ ∧ (run_script env_missing w0).1 = 1.
Proof.
  destruct (missing_dependency_exits env_missing "__main__" w0
              (ModuleNotFoundError "docx")) as [_ ->].
  - reflexivity.
  - reflexivity.
  - split; reflexivity.
Defined.

(** C4, as amended: when the [__main__] block runs to its end, the document
    has been written to the file named SAM_Project_Documentation.docx in
    the directory of [__file__], and the line printed is Wrote
    documentation to: followed by that path as it was computed; the path
    is absolute exactly when [__file__] is. *)
Theorem main_writes_and_prints env w (w' : World) :
  module_body env "__main__" w = (inr tt, w') →
  files w' = <[out_path env := Docx (built env)]> (files w) ∧
  stdout w' = stdout w ++ ["Wrote documentation to: " +:+ out_path env] ∧
  out_path env = os_path_join (os_path_dirname (dunder_file env)) OUTPUT_NAME ∧
  os_path_basename (out_path env) = "SAM_Project_Documentation.docx" ∧
  os_path_dirname (out_path env) = os_path_dirname (dunder_file env) ∧
  os_path_isabs (out_path env) = os_path_isabs (dunder_file env).
Proof.
  rewrite main_outcome. intros Hrun.
  destruct (docx_import env) as [exc|]; [discriminate Hrun|].
  destruct (decide (out_path env ∈ unwritable env)); [discriminate Hrun|].
  destruct (decide (out_path env ∈ write_fails env)); [discriminate Hrun|].
  destruct (stdout_error env); [discriminate Hrun|].
  injection Hrun as <-. cbn [files stdout].
  destruct (os_path_split_join (os_path_dirname (dunder_file env)) OUTPUT_NAME)
    as [Hdir Hbase]; [apply os_path_dirname_shape|reflexivity|].
  split; [reflexivity|]. split; [reflexivity|]. split; [reflexivity|].
  split; [exact Hbase|]. split; [exact Hdir|].
  unfold out_path. rewrite os_path_join_isabs_eq by reflexivity.
  apply os_path_dirname_isabs_eq.
Qed.

Lemma main_writes_and_prints_witness :
  stdout (module_body env0 "__main__" w0).2
  = ["Wrote documentation to: /repo/SAM/SAM_Project_Documentation.docx"].
Proof.
  destruct (main_writes_and_prints env0 w0 (module_body env0 "__main__" w0).2)
    as (_ & Hout & _).
  - vm_compute. reflexivity.
  - rewrite Hout. reflexivity.
Defined.

(** C4, as stated, fails: run with a [__file__] that names the script
    without directory, the [__main__] block succeeds and the path it prints
    is not absolute. *)
Lemma main_prints_relative_path :
  ∃ w',
    module_body env_bare "__main__" w0 = (inr tt, w') ∧
    stdout w' = ["Wrote documentation to: SAM_Project_Documentation.docx"] ∧
    os_path_isabs "SAM_Project_Documentation.docx" = false.
Proof.
  eexists. split; [vm_compute; reflexivity|]. split; reflexivity.
Qed.
End script.

(** ** Further properties of the helpers *)

Section more_helpers.
Implicit Types (doc : Document) (text : string) (items : list string).

Lemma headings_app doc (tail : Document) :
  headings (doc ++ tail) = headings doc ++ headings tail.
Proof. unfold headings. apply omap_app. Qed.

Lemma heading_level_styled (runs0 : list Run) (level : Z) :
  0 <= level <= 9 →
  heading_level
    (mkParagraph runs0
       (Some (if level =? 0 then "Title" else "Heading " +:+ format_d level)) None)
  = Some level.
Proof.
  intros Hl.
  assert (level = 0 ∨ level = 1 ∨ level = 2 ∨ level = 3 ∨ level = 4 ∨
          level = 5 ∨ level = 6 ∨ level = 7 ∨ level = 8 ∨ level = 9) as Hcases by lia.
  repeat (destruct Hcases as [->|Hcases]; [vm_compute; reflexivity|]).
  subst. vm_compute. reflexivity.
Qed.

Lemma add_heading_run text (level : Z) doc :
  0 <= level <= 9 →
  is_valid_xml_utf8 text = true →
  add_heading text level doc
  = (inr tt,
     doc ++ [list_item (if level =? 0 then "Title" else "Heading " +:+ format_d level)
               text]).
Proof.
  intros Hl Hv. unfold add_heading, Document_add_heading.
  replace ((0 <=? level) && (level <=? 9)) with true by lia.
  cbn [negb]. by rewrite Py_bind_run, Document_add_paragraph_run.
Qed.

(** X1: the helper [add_heading], for a level from 0 to 9 and a text the
    library accepts, appends exactly one paragraph, which reads back as a
    heading of that level with that text (a carriage return as a line
    feed): the headings of the document grow by this one, at the end. *)
Theorem add_heading_appends_heading text (level : Z) doc :
  0 <= level <= 9 →
  is_valid_xml_utf8 text = true →
  ∃ para,
    add_heading text level doc = (inr tt, doc ++ [para]) ∧
    heading_level para = Some level ∧
    Paragraph_text para = read_back text ∧
    headings (doc ++ [para]) = headings doc ++ [(level, read_back text)].
Proof.
  intros Hl Hv. eexists. split; [by apply add_heading_run|].
  assert (Hlevel : ∀ text0, heading_level
            (list_item (if level =? 0 then "Title" else "Heading " +:+ format_d level)
               text0) = Some level).
  { intros text0. unfold list_item. by apply heading_level_styled. }
  split; [apply Hlevel|]. split; [apply Paragraph_text_list_item|].
  rewrite headings_app. f_equal. unfold headings. cbn [omap list_omap].
  by rewrite Hlevel, Paragraph_text_list_item.
Qed.

Lemma add_heading_appends_heading_witness :
  ∃ para, add_heading "Intro" 2 [] = (inr tt, [para]) ∧
          heading_level para = Some 2 ∧ Paragraph_text para = "Intro".
Proof.
  destruct (add_heading_appends_heading "Intro" 2 []) as (para & Hrun & Hlev & Htext & _).
  - lia.
  - reflexivity.
  - exists para. split; [exact Hrun|]. split; [exact Hlev|]. rewrite Htext. reflexivity.
Defined.

(** X3: two calls of [add_bullets] (or of [add_numbered]) in a row append what
    one call on the concatenated items appends. *)
Theorem add_bullets_add_numbered_concat (xs ys : list string) doc :
  add_bullets (xs ++ ys) doc = (add_bullets xs;; add_bullets ys) doc ∧
  add_numbered (xs ++ ys) doc = (add_numbered xs;; add_numbered ys) doc.
Proof. unfold add_bullets, add_numbered. split; apply for_each_app. Qed.

Lemma headings_unstyled (tail : Document) :
  Forall (λ p, heading_level p = None) tail → headings tail = [].
Proof.
  induction 1 as [|p tail Hp _ IH]; [done|].
  unfold headings in *. cbn [omap list_omap]. by rewrite Hp.
Qed.

Lemma headings_list_loop (sty : string) items doc :
  list_find (λ s, s = sty) heading_styles = None →
  headings
    (for_each items (λ item, Document_add_paragraph item (Some sty);; mret tt) doc).2
  = headings doc.
Proof.
  intros Hsty. destruct (for_each_add_paragraph_appends sty items doc)
    as (tail & -> & Htail).
  rewrite headings_app, (headings_unstyled tail); [by rewrite app_nil_r|].
  eapply Forall_impl; [exact Htail|]. intros p [Hp|Hp].
  - unfold heading_level. rewrite Hp. cbn [mbind option_bind]. by rewrite Hsty.
  - unfold heading_level. by rewrite Hp.
Qed.

(** X4: the helpers [add_paragraph], [add_bullets] and [add_numbered] never add
    or change a heading. *)
Theorem body_helpers_keep_headings text (bold italic : bool)
    (align : option string) items doc :
  headings (add_paragraph text bold italic align doc).2 = headings doc ∧
  headings (add_bullets items doc).2 = headings doc ∧
  headings (add_numbered items doc).2 = headings doc.
Proof.
  split; [|split; by apply headings_list_loop].
  rewrite add_paragraph_outcome.
  destruct (if decide (text = "") then _ else _) as [[e|] content].
  all: cbn [snd]; rewrite headings_app; cbn; by rewrite app_nil_r.
Qed.

Lemma list_blocks_cons (p q : Paragraph) (rest : Document) :
  list_blocks (p :: q :: rest)
  = if is_list_style (style p) then
      if decide (style q = style p) then
        match list_blocks (q :: rest) with
        | (s, items) :: blocks => (s, Paragraph_text p :: items) :: blocks
        | [] => [(default "" (style p), [Paragraph_text p])]
        end
      else (default "" (style p), [Paragraph_text p]) :: list_blocks (q :: rest)
    else list_blocks (q :: rest).
Proof. reflexivity. Qed.

Lemma list_blocks_items (sty : string) items :
  is_list_style (Some sty) = true →
  items ≠ [] →
  list_blocks (list_item sty <$> items) = [(sty, read_back <$> items)].
Proof.
  intros Hsty Hne. induction items as [|item items IH]; [done|].
  destruct items as [|item' items].
  - cbn [fmap list_fmap list_blocks list_item style]. rewrite Hsty.
    cbn [default]. by rewrite Paragraph_text_list_item.
  - rewrite !fmap_cons, list_blocks_cons. rewrite <- fmap_cons.
    rewrite IH by done. change (style (list_item sty item)) with (Some sty).
    change (style (list_item sty item')) with (Some sty).
    rewrite Hsty, decide_True by done.
    by rewrite Paragraph_text_list_item.
Qed.

Lemma list_blocks_head (p : Paragraph) (rest : Document) :
  is_list_style (style p) = true → list_blocks (p :: rest) ≠ [].
Proof.
  intros Hp. cbn [list_blocks]. rewrite Hp.
  destruct rest as [|q rest]; [done|].
  case_decide; [|done]. by destruct (list_blocks (q :: rest)) as [|[??]?].
Qed.

(** The list blocks of two documents put end to end are the blocks of the
    one followed by the blocks of the other, when the paragraphs that meet
    differ in style. *)
Lemma list_blocks_app doc (tail : Document) :
  (∀ p q, last doc = Some p → head tail = Some q → style q ≠ style p) →
  list_blocks (doc ++ tail) = list_blocks doc ++ list_blocks tail.
Proof.
  intros Hmeet. induction doc as [|p rest IH]; [done|].
  destruct rest as [|q rest].
  - cbn [app list_blocks]. destruct (is_list_style (style p)); [|done].
    destruct tail as [|q tail]; [done|].
    rewrite decide_False; [done|]. by apply Hmeet.
  - assert (IH' : list_blocks ((q :: rest) ++ tail)
                  = list_blocks (q :: rest) ++ list_blocks tail).
    { apply IH. intros p' q' Hlast. by apply Hmeet. }
    change ((p :: q :: rest) ++ tail) with (p :: q :: rest ++ tail).
    rewrite !list_blocks_cons.
    change (q :: rest ++ tail) with ((q :: rest) ++ tail). rewrite IH'.
    destruct (is_list_style (style p)) eqn:Hp; [|done].
    case_decide as Hq; [|done].
    assert (Hne : list_blocks (q :: rest) ≠ []).
    { apply list_blocks_head. by rewrite Hq. }
    by destruct (list_blocks (q :: rest)) as [|[??]?].
Qed.

(** X5: on a document that does not end in a bulleted item, one call of
    [add_bullets] with at least one item, all accepted by the library, adds
    exactly one list block, made of the items in order as they read back;
    the blocks before it stay as they were. *)
Theorem add_bullets_one_block items doc :
  items ≠ [] →
  Forall (λ item, is_valid_xml_utf8 item = true) items →
  (∀ p, last doc = Some p → style p ≠ Some "List Bullet") →
  list_blocks (add_bullets items doc).2
  = list_blocks doc ++ [("List Bullet", read_back <$> items)].
Proof.
  intros Hne Hv Hlast. rewrite add_bullets_run by done. cbn [snd].
  rewrite list_blocks_app.
  - by rewrite list_blocks_items.
  - intros p q Hp Hq Hstyle. apply (Hlast p Hp). rewrite <- Hstyle.
    destruct items as [|item items]; [done|]. by injection Hq as <-.
Qed.

Lemma add_bullets_one_block_witness :
  list_blocks (add_bullets ["a"; "b"] [mkParagraph [] (Some "Heading 1") None]).2
  = [("List Bullet", ["a"; "b"])].
Proof.
  rewrite (add_bullets_one_block ["a"; "b"] [mkParagraph [] (Some "Heading 1") None]).
  - reflexivity.
  - discriminate.
  - repeat constructor.
  - intros p [= <-]. discriminate.
Defined.
End more_helpers.

(** ** Further properties of generate_doc *)

Section runs.
Implicit Types (env : Env) (path : string) (w : World) (doc : Document).



(** X7: a successful [generate_doc] changes the file at the output path and
    nothing else: every other file and both output streams are as before
    (the function itself prints nothing). *)
Theorem generate_doc_touches_output_only env path w (w' : World) (other : string) :
  generate_doc env path w = (inr tt, w') →
  other ≠ path →
  files w' !! other = files w !! other ∧
  stdout w' = stdout w ∧ stderr w' = stderr w.
Proof.
  intros Hrun Hother. destruct (decide (path ∈ unwritable env)) as [Hw|Hw].
  { rewrite (generate_doc_unwritable env path w Hw) in Hrun. discriminate Hrun. }
  destruct (decide (path ∈ write_fails env)) as [Hf|Hf].
  { rewrite (generate_doc_write_fails env path w Hw Hf) in Hrun. discriminate Hrun. }
  rewrite (generate_doc_writable env path w Hw Hf) in Hrun. injection Hrun as <-.
  cbn [files stdout stderr]. by rewrite lookup_insert_ne.
Qed.

Lemma generate_doc_touches_output_only_witness :
  files (generate_doc env0 "/out.docx" (mkWorld {["/notes.txt" := Docx []]} [] [])).2
    !! "/notes.txt"
  = files (mkWorld {["/notes.txt" := Docx []]} [] []) !! "/notes.txt".
Proof.
  destruct (generate_doc_touches_output_only env0 "/out.docx"
              (mkWorld {["/notes.txt" := Docx []]} [] [])
              (generate_doc env0 "/out.docx" (mkWorld {["/notes.txt" := Docx []]} [] [])).2
              "/notes.txt") as (Hfiles & _ & _).
  - vm_compute. reflexivity.
  - discriminate.
  - exact Hfiles.
Defined.

(** X8: running [generate_doc] again on the same path overwrites the file: the
    world after two successful runs is the world after the second alone,
    whatever the first run wrote. *)
Theorem generate_doc_overwrites (enva envb : Env) path w (wa wb : World) :
  generate_doc enva path w = (inr tt, wa) →
  generate_doc envb path wa = (inr tt, wb) →
  generate_doc envb path w = (inr tt, wb).
Proof.
  intros Ha Hb.
  destruct (decide (path ∈ unwritable enva)) as [Hwa|Hwa].
  { rewrite (generate_doc_unwritable enva path w Hwa) in Ha. discriminate Ha. }
  destruct (decide (path ∈ write_fails enva)) as [Hfa|Hfa].
  { rewrite (generate_doc_write_fails enva path w Hwa Hfa) in Ha. discriminate Ha. }
  destruct (decide (path ∈ unwritable envb)) as [Hwb|Hwb].
  { rewrite (generate_doc_unwritable envb path wa Hwb) in Hb. discriminate Hb. }
  destruct (decide (path ∈ write_fails envb)) as [Hfb|Hfb].
  { rewrite (generate_doc_write_fails envb path wa Hwb Hfb) in Hb. discriminate Hb. }
  rewrite (generate_doc_writable enva path w Hwa Hfa) in Ha. injection Ha as <-.
  rewrite (generate_doc_writable envb path _ Hwb Hfb) in Hb. injection Hb as <-.
  rewrite (generate_doc_writable envb path w Hwb Hfb). cbn [files stdout stderr].
  f_equal. f_equal. apply symmetry, insert_insert_eq.
Qed.

Lemma generate_doc_overwrites_witness :
  generate_doc env1 "/out.docx" w0
  = (inr tt,
     mkWorld (<["/out.docx" := Docx (built env1)]>
                (<["/out.docx" := Docx (built env0)]> ∅)) [] []).
Proof.
  assert (Ha : generate_doc env0 "/out.docx" w0
               = (inr tt, mkWorld (<["/out.docx" := Docx (built env0)]> ∅) [] []))
    by (vm_compute; reflexivity).
  assert (Hb : generate_doc env1 "/out.docx"
                 (mkWorld (<["/out.docx" := Docx (built env0)]> ∅) [] [])
               = (inr tt,
                  mkWorld (<["/out.docx" := Docx (built env1)]>
                             (<["/out.docx" := Docx (built env0)]> ∅)) [] []))
    by (vm_compute; reflexivity).
  exact (generate_doc_overwrites env0 env1 "/out.docx" w0 _ _ Ha Hb).
Defined.
End runs.

(** ** What the generated document contains *)

Section content.
Implicit Types (env : Env) (path : string) (w : World) (doc : Document).

(** X12: the document of a successful run holds exactly four blocks in the style
    Intense Quote, the shell commands of sections 5, 6 and 7, in the order
    of the source. *)
Theorem generate_doc_command_blocks env path w doc :
  produced env path w = Some doc →
  styled_texts "Intense Quote" doc =
    ["pip install -e .";
     "python scripts/amg.py --input <image_or_folder> --output output_dir/";
     "python scripts/export_onnx_model.py --checkpoint <path_to_ckpt> --output sam.onnx";
     "cd segment-anything/demo && npm ci && npm run dev"].
Proof.
  intros ->%produced_built. rewrite built_stamped. abstract_stamp env.
  vm_compute. reflexivity.
Qed.

Lemma generate_doc_command_blocks_witness :
  length (styled_texts "Intense Quote" (built env0)) = 4%nat.
Proof.
  rewrite (generate_doc_command_blocks env0 "/out.docx" w0 (built env0)).
  - reflexivity.
  - vm_compute. reflexivity.
Defined.

(** X13: in the document of a successful run no paragraph has its alignment set
    and no run is bold; the italic runs are the two lines of the cover, the
    Generated stamp and the audience. *)
Theorem generate_doc_formatting env path w doc :
  produced env path w = Some doc →
  filter (λ p, alignment p ≠ None) doc = [] ∧
  filter (λ r, run_bold r = Some true) (all_runs doc) = [] ∧
  run_text <$> filter (λ r, run_italic r = Some true) (all_runs doc) =
    ["Generated: " +:+ strftime (datetime_now env) "%Y-%m-%d %H:%M";
     "Audience: Project Manager, Software Engineer"].
Proof.
  intros ->%produced_built. rewrite built_stamped. abstract_stamp env.
  repeat split; vm_compute; reflexivity.
Qed.

Lemma generate_doc_formatting_witness :
  filter (λ r, run_bold r = Some true) (all_runs (built env0)) = [].
Proof.
  destruct (generate_doc_formatting env0 "/out.docx" w0 (built env0)) as (_ & Hbold & _).
  - vm_compute. reflexivity.
  - exact Hbold.
Defined.
End content.

(** ** The time stamp identifies the minute *)

Section stamp.
Implicit Types (t : datetime) (env : Env).

(** A number below 10^width, zero-filled to [width], has [width] characters
    and reads back as itself. *)
Lemma zfill_read_back (width : nat) (bound n : Z) :
  forallb (λ k, (String.length (zfill width (format_d k)) =? width)%nat
                && (read_digits 0 (zfill width (format_d k)) =? k))
    (seqZ 0 bound) = true →
  0 <= n < bound →
  String.length (zfill width (format_d n)) = width ∧
  read_digits 0 (zfill width (format_d n)) = n.
Proof.
  intros Hall Hn. rewrite forallb_forall in Hall.
  specialize (Hall n). rewrite <- list_elem_of_In, elem_of_seqZ in Hall.
  apply andb_prop in Hall as [Hlen Hread]; [|lia].
  split; [by apply Nat.eqb_eq|lia].
Qed.

Lemma zfill_inj (width : nat) (bound a b : Z) :
  forallb (λ k, (String.length (zfill width (format_d k)) =? width)%nat
                && (read_digits 0 (zfill width (format_d k)) =? k))
    (seqZ 0 bound) = true →
  0 <= a < bound → 0 <= b < bound →
  ∀ ra rb : string,
    zfill width (format_d a) +:+ ra = zfill width (format_d b) +:+ rb →
    a = b ∧ ra = rb.
Proof.
  intros Hall Ha Hb ra rb Heq.
  destruct (zfill_read_back width bound a Hall Ha) as [Hla Hra].
  destruct (zfill_read_back width bound b Hall Hb) as [Hlb Hrb].
  assert (Hsplit : ∀ x y : string, String.length x = String.length y →
            x +:+ ra = y +:+ rb → x = y ∧ ra = rb).
  { clear. induction x as [|c x IH]; intros [|c' y] Hlen Happ; try done.
    rewrite !app_cons_string in Happ. injection Happ as -> Happ.
    destruct (IH y) as [-> ->]; [by injection Hlen|done|done]. }
  destruct (Hsplit _ _ (eq_trans Hla (eq_sym Hlb)) Heq) as [Hz ->].
  split; [|done]. rewrite <- Hra, <- Hrb. by rewrite Hz.
Qed.

Lemma strftime_stamp t :
  strftime t stamp_format
  = zfill 4 (format_d (year t)) +:+ String "-"
      (zfill 2 (format_d (month t)) +:+ String "-"
         (zfill 2 (format_d (day t)) +:+ String " "
            (zfill 2 (format_d (hour t)) +:+ String ":"
               (zfill 2 (format_d (minute t)) +:+ "")))).
Proof. reflexivity. Qed.

(** For clock readings in range, equal stamps come from the same minute. *)
Lemma strftime_stamp_inj (ta tb : datetime) :
  valid_clock ta → valid_clock tb →
  strftime ta stamp_format = strftime tb stamp_format →
  same_minute ta tb.
Proof.
  intros (Hya & Hma & Hda & HHa & HMa) (Hyb & Hmb & Hdb & HHb & HMb).
  rewrite !strftime_stamp. intros Heq.
  assert (H4 : forallb (λ k, (String.length (zfill 4 (format_d k)) =? 4)%nat
                 && (read_digits 0 (zfill 4 (format_d k)) =? k))
                 (seqZ 0 10000) = true) by (vm_compute; reflexivity).
  assert (H2 : forallb (λ k, (String.length (zfill 2 (format_d k)) =? 2)%nat
                 && (read_digits 0 (zfill 2 (format_d k)) =? k))
                 (seqZ 0 100) = true) by (vm_compute; reflexivity).
  apply (zfill_inj 4 10000 _ _ H4) in Heq as [Hy Heq]; [|lia|lia].
  injection Heq as Heq.
  apply (zfill_inj 2 100 _ _ H2) in Heq as [Hm Heq]; [|lia|lia].
  injection Heq as Heq.
  apply (zfill_inj 2 100 _ _ H2) in Heq as [Hd Heq]; [|lia|lia].
  injection Heq as Heq.
  apply (zfill_inj 2 100 _ _ H2) in Heq as [HH Heq]; [|lia|lia].
  injection Heq as Heq.
  apply (zfill_inj 2 100 _ _ H2) in Heq as [HM _]; [|lia|lia].
  clear H4 H2. unfold same_minute. auto.
Qed.

(** X14: two successful runs whose clocks are in range and that wrote the same
    document ran in the same minute: the stamp on the cover tells the
    minutes apart. *)
Theorem generate_doc_same_document_same_minute (enva envb : Env)
    (patha pathb : string) (wa wb : World) (doc : Document) :
  valid_clock (datetime_now enva) →
  valid_clock (datetime_now envb) →
  produced enva patha wa = Some doc →
  produced envb pathb wb = Some doc →
  same_minute (datetime_now enva) (datetime_now envb).
Proof.
  intros Hva Hvb Ha%produced_built Hb%produced_built.
  destruct built_shape as (title & rest & Hshape).
  rewrite Ha, !Hshape in Hb. injection Hb as Hb.
  apply strftime_stamp_inj; [done|done|].
  unfold stamp_format in *. by simplify_eq.
Qed.

Lemma generate_doc_same_document_same_minute_witness :
  same_minute (datetime_now env0) (datetime_now env0).
Proof.
  apply (generate_doc_same_document_same_minute env0 env0 "/a.docx" "/b.docx"
           w0 w0 (built env0)).
  - vm_compute. intuition discriminate.
  - vm_compute. intuition discriminate.
  - vm_compute. reflexivity.
  - vm_compute. reflexivity.
Defined.
End stamp.
